(** * cool_btc_bot: the watcher / alerting engine

    A shallow embedding of [cool_btc_bot.py]: the module globals
    ([_subs], [_interval], [_fail_seq]), the two JSON files, the price
    fetch, the button / text handlers, [change_interval], one iteration
    of the [watcher] loop and the start-up code of [main].

    What belongs to the libraries the bot calls is kept at their
    interface:
    - a Python [float] is an IEEE 754 binary64 value ([spec_float] with
      precision 53 and maximal exponent 1024);
    - the HTTP exchange with the price source is an input of each step
      ([http_result]), and so are the outcome of each [send_message]
      and of each file write ([world]);
    - the texts sent to users are kept as structured [message]s, their
      rendering ([fmt_num], [fprice], keyboards) is presentation;
    - a reply to the user who triggered a handler is the handler's
      return value, and sending it is taken to succeed;
    - an update comes from a user in a chat; the handlers take both
      identifiers, which are equal in a private chat;
    - a log call whose argument does not fit its format ([%d] with a
      [str]) writes no line: [logging] reports the error on its own
      and the caller goes on;
    - the two files hold documents of the shape the bot writes (an
      object of numbers, an object with an integer member), or are
      missing, or are not valid JSON. *)

From Stdlib Require Import ZArith List String Ascii Bool Lia.
From Stdlib Require Import SpecFloat DecimalString DecimalZ DecimalPos.
Import ListNotations.

Local Open Scope string_scope.
Local Open Scope list_scope.
Local Open Scope Z_scope.

(* ================================================================== *)
(** * Python values *)
(* ================================================================== *)

(** ** Floats *)

(** A Python [float]. *)
Definition float : Type := spec_float.

Module PyFloat.

Definition prec : Z := 53.
Definition emax : Z := 1024.

(** [a - b] and [abs(a)] on floats. *)
Definition sub (a b : float) : float := SFsub prec emax a b.
Definition abs (a : float) : float := SFabs a.

(** [a == b] on floats. *)
Definition eqb (a b : float) : bool := SFeqb a b.

(** [float(n)] for an integer [n], rounded to nearest even. *)
Definition of_Z (n : Z) : float := binary_normalize prec emax n 0 false.

(** [float("<n>e-<d>")]: the binary64 value nearest to the decimal
    [n / 10^d]; correctly rounded as long as [n] and [10^d] are
    themselves floats (below [2^53]). *)
Definition of_decimal (n : Z) (d : Z) : float :=
  SFdiv prec emax (of_Z n) (of_Z (10 ^ d)).

Definition zero : float := S754_zero false.

(** [bool(a)]: a float is falsy exactly when it is [0.0] or [-0.0]
    (a NaN is truthy). *)
Definition truthy (a : float) : bool :=
  match a with
  | S754_zero _ => false
  | _ => true
  end.

(** Python compares a float with an [int] exactly, without rounding
    the integer: [None] when the float is a NaN. *)
Definition compare_int (a : float) (n : Z) : option comparison :=
  match a with
  | S754_nan => None
  | S754_infinity s => Some (if s then Lt else Gt)
  | S754_zero _ => Some (0 ?= n)
  | S754_finite s m e =>
      let v := cond_Zopp s (Zpos m) in
      Some match e with
           | Z0 => v ?= n
           | Zpos k => v * 2 ^ Zpos k ?= n
           | Zneg k => v ?= n * 2 ^ Zpos k
           end
  end.

(** [a >= n] for a float [a] and an integer [n]. *)
Definition ge_int (a : float) (n : Z) : bool :=
  match compare_int a n with
  | Some (Gt | Eq) => true
  | _ => false
  end.

(** [a > 0]. *)
Definition gt_zero (a : float) : bool := SFltb zero a.

End PyFloat.

(** ** Integers and strings *)

(** The blanks [int()] skips around an ASCII text: the space and the
    characters 9 to 13. *)
Definition is_space (c : ascii) : bool :=
  let n := nat_of_ascii c in
  (Nat.eqb n 32 || (Nat.leb 9 n && Nat.leb n 13))%bool.

Definition digit_of (c : ascii) : option Z :=
  let n := Z.of_nat (nat_of_ascii c) in
  if (48 <=? n) && (n <=? 57) then Some (n - 48) else None.

Fixpoint lstrip (l : list ascii) : list ascii :=
  match l with
  | c :: l' => if is_space c then lstrip l' else l
  | [] => []
  end.

Definition strip (l : list ascii) : list ascii := rev (lstrip (rev (lstrip l))).

(** Decimal digits with single underscores between them.  [acc] is the
    value read so far, [prev] tells whether the previous character was a
    digit. *)
Fixpoint py_digits (l : list ascii) (acc : Z) (prev : bool) : option Z :=
  match l with
  | [] => if prev then Some acc else None
  | c :: l' =>
      match digit_of c with
      | Some d => py_digits l' (10 * acc + d) true
      | None =>
          if (Ascii.eqb c "_" && prev)%bool then py_digits l' acc false else None
      end
  end.

(** [int(s)] for a text of ASCII characters; [None] is [ValueError].
    A [Some] is what Python returns for that text.  Python also reads
    digits and blanks of other scripts, which are outside this model:
    for a text with a character that is not ASCII the [None] here says
    nothing about the code.  The texts read here are Telegram messages
    and callback data, at most 4096 characters long, so the limit of
    4300 digits that [int] puts on its argument is never reached. *)
Definition py_int (s : string) : option Z :=
  match strip (list_ascii_of_string s) with
  | "-"%char :: l => option_map Z.opp (py_digits l 0 false)
  | "+"%char :: l => py_digits l 0 false
  | l => py_digits l 0 false
  end.

(** [str(n)] for an integer. *)
Definition py_str (n : Z) : string := NilZero.string_of_int (Z.to_int n).

(** [s.startswith(p)] and [s.split(sep, 1)[1]] for a one-character
    separator (the part after its first occurrence). *)
Definition startswith (p s : string) : bool := String.prefix p s.

Fixpoint after_first (sep : ascii) (s : string) : option string :=
  match s with
  | EmptyString => None
  | String c s' => if Ascii.eqb c sep then Some s' else after_first sep s'
  end.

(** ** Dictionaries keyed by chat identifiers

    [_subs] is annotated [Dict[int, float]]; at run time its keys are
    the [int] chat identifiers put there by the handlers and the [str]
    keys of a dictionary obtained from [json.loads].  A Python [dict]
    keeps its keys in insertion order, so it is an association list in
    which assigning to a present key replaces the value in place. *)

Inductive key : Type :=
| KInt (n : Z)
| KStr (s : string).

Definition key_eqb (a b : key) : bool :=
  match a, b with
  | KInt n, KInt m => n =? m
  | KStr s, KStr t => String.eqb s t
  | _, _ => false
  end.

(** The keys made by the handlers, as against the keys read from a
    file. *)
Definition is_int_key (k : key) : bool :=
  match k with
  | KInt _ => true
  | KStr _ => false
  end.

Definition dict := list (key * float).

(** [d.get(k)]. *)
Fixpoint dict_get (k : key) (d : dict) : option float :=
  match d with
  | [] => None
  | (k', v) :: d' => if key_eqb k k' then Some v else dict_get k d'
  end.

(** [k in d]. *)
Definition dict_in (k : key) (d : dict) : bool :=
  match dict_get k d with Some _ => true | None => false end.

(** [d[k] = v]. *)
Fixpoint dict_set (k : key) (v : float) (d : dict) : dict :=
  match d with
  | [] => [(k, v)]
  | (k', v') :: d' =>
      if key_eqb k k' then (k', v) :: d' else (k', v') :: dict_set k v d'
  end.

(** The dictionary left by [d.pop(k, None)]. *)
Fixpoint dict_remove (k : key) (d : dict) : dict :=
  match d with
  | [] => []
  | (k', v') :: d' => if key_eqb k k' then d' else (k', v') :: dict_remove k d'
  end.

Definition keys (d : dict) : list key := map fst d.

(* ================================================================== *)
(** * The persistent store *)
(* ================================================================== *)

(** The two JSON documents: [btc_bot_state.json] is an object from
    names to numbers, [btc_collab.json] an object with an integer
    member.  A float survives [json.dumps] / [json.loads] unchanged
    (Python prints the shortest decimal that reads back as the same
    float), so the documents hold the floats themselves.

    A file is missing, is not valid JSON, or holds an object of the
    shape [write_json] gives it.  Valid JSON of another shape (an
    array, a number, an object with members of other types), which
    only an edit of the file from outside can produce, is not
    represented: on such a file the code goes on with a value that is
    not a dictionary, and [main] raises [AttributeError] at [.get] on
    an interval file that is not an object. *)
Definition state_doc := list (string * float).
Definition collab_doc := list (string * Z).

Inductive content (D : Type) : Type :=
| Missing              (* the file does not exist *)
| Corrupt              (* it exists and is not valid JSON *)
| Doc (d : D).
Arguments Missing {D}.
Arguments Corrupt {D}.
Arguments Doc {D} d.

Record disk : Type := mkDisk {
  state_json : content state_doc;
  collab_json : content collab_doc
}.

(** A path, with the document type stored there. *)
Record file (D : Type) : Type := mkFile {
  load : disk -> content D;
  store : D -> disk -> disk
}.
Arguments load {D}.
Arguments store {D}.

Definition STATE_FILE : file state_doc :=
  mkFile _ state_json (fun d fs => mkDisk (Doc d) (collab_json fs)).
Definition COLLAB_FILE : file collab_doc :=
  mkFile _ collab_json (fun d fs => mkDisk (state_json fs) (Doc d)).

Definition POLL_SEC : Z := 5.
Definition DEFAULT_INT : Z := 200.
Definition CHOICES : list Z := [50; 100; 200; 500].
Definition FAIL_LIMIT : Z := 5.

(** [json.dumps] of [_subs]: every key becomes a JSON name, an [int]
    key through [str]. *)
Definition key_name (k : key) : string :=
  match k with
  | KInt n => py_str n
  | KStr s => s
  end.

Definition dumps_subs (d : dict) : state_doc :=
  map (fun kv => (key_name (fst kv), snd kv)) d.

(** [json.loads] of an object: a [dict] with [str] keys; a repeated
    name keeps its first position and its last value. *)
Definition loads_subs (doc : state_doc) : dict :=
  fold_left (fun d nv => dict_set (KStr (fst nv)) (snd nv) d) doc [].

(** [obj.get(name, default)] on a loaded object. *)
Fixpoint doc_get (name : string) (doc : collab_doc) (default : Z) : Z :=
  match doc with
  | [] => default
  | (n, v) :: doc' => doc_get name doc' (if String.eqb n name then v else default)
  end.

(* ================================================================== *)
(** * Program state and effects *)
(* ================================================================== *)

(** What the price source answers to one request of [get_price]. *)
Inductive http_result : Type :=
| HttpOk (p : float)   (* a 2xx answer whose "price" member reads as a float *)
| HttpMalformed        (* ValueError / KeyError: not JSON, no "price", not a number *)
| HttpTransport        (* requests.RequestException: network, timeout, non-2xx *)
| HttpUnexpected.      (* an exception [get_price] does not catch *)

(** What the outside does during one handler call or one watcher
    iteration: the answer of the price source, which chats accept a
    message, and whether a file write goes through. *)
Record world : Type := mkWorld {
  http : http_result;
  delivers : key -> bool;
  disk_ok : bool
}.

(** The messages of the bot. *)
Inductive message : Type :=
| MsgPrice (p : float)                          (* "BTC = <p>$" *)
| MsgUnavailable                                (* price unavailable *)
| MsgUnavailableRetry                           (* price unavailable, try later *)
| MsgSubscribed
| MsgUnsubscribed
| MsgCurrentInterval (n : Z)
| MsgAskInterval
| MsgNeedPositive                               (* a positive integer is needed *)
| MsgIntervalChanged (old new : Z)
| MsgAlert (up : bool) (p diff : float) (step : Z).

Inductive exn : Type :=
| ValueError
| TelegramError
| OtherError.

Inductive log_entry : Type :=
| LogPrice (p : float)                  (* info *)
| LogBadJson (n : Z)                    (* error, with the failure count *)
| LogHttpError (n : Z)                  (* warning, with the failure count *)
| LogFailLimit                          (* error: the failure limit is reached *)
| LogReadFail                           (* error *)
| LogWriteFail                          (* error *)
| LogSubscribed (uid : Z) (p : float)
| LogUnsubscribed (uid : Z)
| LogInterval (old new uid : Z)
| LogNotifyFail (uid : key)             (* warning *)
| LogSendError (uid : key)              (* error *)
| LogWatcherException (e : exn)
| LogStart (n : nat) (step : Z).

(** One call of [bot.send_message]: recipient, text, and whether it was
    delivered. *)
Definition attempt : Type := key * message * bool.

(** The module globals, the users whose [user_data] has [await_int] set,
    the files, and what the program has written to its log and tried to
    send so far (oldest first). *)
Record state : Type := mkState {
  _subs : dict;
  _interval : Z;
  _fail_seq : Z;
  await_int : list Z;
  files : disk;
  logged : list log_entry;
  outbox : list attempt
}.

Definition set_subs (d : dict) (s : state) : state :=
  mkState d (_interval s) (_fail_seq s) (await_int s) (files s) (logged s) (outbox s).
Definition set_interval (n : Z) (s : state) : state :=
  mkState (_subs s) n (_fail_seq s) (await_int s) (files s) (logged s) (outbox s).
Definition set_fail_seq (n : Z) (s : state) : state :=
  mkState (_subs s) (_interval s) n (await_int s) (files s) (logged s) (outbox s).
Definition set_await (l : list Z) (s : state) : state :=
  mkState (_subs s) (_interval s) (_fail_seq s) l (files s) (logged s) (outbox s).
Definition set_files (d : disk) (s : state) : state :=
  mkState (_subs s) (_interval s) (_fail_seq s) (await_int s) d (logged s) (outbox s).
Definition add_log (e : log_entry) (s : state) : state :=
  mkState (_subs s) (_interval s) (_fail_seq s) (await_int s) (files s)
          (logged s ++ [e]) (outbox s).
Definition add_attempt (a : attempt) (s : state) : state :=
  mkState (_subs s) (_interval s) (_fail_seq s) (await_int s) (files s)
          (logged s) (outbox s ++ [a]).

(** ** A state monad with Python's exceptions

    A statement runs on the state and either returns or raises; what it
    changed before raising stays changed. *)

Inductive result (A : Type) : Type :=
| Ret (a : A)
| Raise (e : exn).
Arguments Ret {A} a.
Arguments Raise {A} e.

Definition M (A : Type) : Type := state -> result A * state.

Definition ret {A} (a : A) : M A := fun s => (Ret a, s).

Definition bind {A B} (c : M A) (k : A -> M B) : M B :=
  fun s =>
    match c s with
    | (Ret a, s') => k a s'
    | (Raise e, s') => (Raise e, s')
    end.

Definition raise {A} (e : exn) : M A := fun s => (Raise e, s).
Definition gets {A} (f : state -> A) : M A := fun s => (Ret (f s), s).
Definition modify (f : state -> state) : M unit := fun s => (Ret tt, f s).

(** [try: c  except <handles>: h]. *)
Definition try_except {A} (c : M A) (handles : exn -> bool) (h : exn -> M A) : M A :=
  fun s =>
    match c s with
    | (Raise e, s') => if handles e then h e s' else (Raise e, s')
    | r => r
    end.

Declare Scope py_scope.
Delimit Scope py_scope with py.
Notation "x <- c ;; k" := (bind c (fun x => k))
  (at level 61, c at next level, right associativity) : py_scope.
Notation "c ;; k" := (bind c (fun _ => k))
  (at level 61, right associativity) : py_scope.
Local Open Scope py_scope.

(** [for x in l: body x]. *)
Fixpoint for_each {A} (l : list A) (body : A -> M unit) : M unit :=
  match l with
  | [] => ret tt
  | x :: l' => body x ;; for_each l' body
  end.

Definition log (e : log_entry) : M unit := modify (add_log e).

(** A logging call whose format has [%d] for the registry key [uid].
    The logging module cannot format a [str] with [%d]: it reports that
    on the error stream, raises nothing and writes no line. *)
Definition add_log_d (uid : key) (e : log_entry) (s : state) : state :=
  match uid with
  | KInt _ => add_log e s
  | KStr _ => s
  end.
Definition log_d (uid : key) (e : log_entry) : M unit := modify (add_log_d uid e).

Definition state_of {A} (r : result A * state) : state := snd r.
Definition value_of {A} (r : result A * state) : result A := fst r.

(** ** JSON helpers *)

Definition read_json {D} (path : file D) (default : D) : M D :=
  fs <- gets files ;;
  match load path fs with
  | Doc d => ret d
  | Missing => ret default
  | Corrupt => log LogReadFail ;; ret default
  end.

(** The document replaces the file in one step ([tmp.replace(path)]), or
    the file is left as it was and the error is logged. *)
Definition write_json {D} (path : file D) (data : D) (w : world) : M unit :=
  if disk_ok w then modify (fun s => set_files (store path data (files s)) s)
  else log LogWriteFail.

(** ** The price source *)

(** The [try] block either returns the price or, after a caught
    exception, falls through to the check of the failure limit. *)
Definition get_price (w : world) : M (option float) :=
  returned <-
    match http w with
    | HttpOk p =>
        modify (set_fail_seq 0) ;;
        log (LogPrice p) ;;
        ret (Some p)
    | HttpMalformed =>
        n <- gets _fail_seq ;;
        modify (set_fail_seq (n + 1)) ;;
        log (LogBadJson (n + 1)) ;;
        ret None
    | HttpTransport =>
        n <- gets _fail_seq ;;
        modify (set_fail_seq (n + 1)) ;;
        log (LogHttpError (n + 1)) ;;
        ret None
    | HttpUnexpected => raise OtherError
    end ;;
  match returned with
  | Some p => ret (Some p)
  | None =>
      n <- gets _fail_seq ;;
      (if n >=? FAIL_LIMIT then log LogFailLimit else ret tt) ;;
      ret None
  end.

(* ================================================================== *)
(** * Handlers *)
(* ================================================================== *)

Definition send_message (uid : key) (txt : message) (w : world) : M unit :=
  modify (add_attempt (uid, txt, delivers w uid)) ;;
  if delivers w uid then ret tt else raise TelegramError.

Definition is_TelegramError (e : exn) : bool :=
  match e with TelegramError => true | _ => false end.
Definition is_ValueError (e : exn) : bool :=
  match e with ValueError => true | _ => false end.
Definition any_exception (e : exn) : bool := true.

(** [if x:] on the result of [get_price()] or [_subs.pop(uid, None)]. *)
Definition truthy (x : option float) : bool :=
  match x with
  | Some p => PyFloat.truthy p
  | None => false
  end.

(** The body of [for uid in list(_subs)] in [change_interval]. *)
Definition notify (txt : message) (by_uid : Z) (notify_changer : bool)
  (w : world) (uid : key) : M unit :=
  if (key_eqb uid (KInt by_uid) && negb notify_changer)%bool then ret tt
  else try_except (send_message uid txt w) is_TelegramError
                  (fun _ => log_d uid (LogNotifyFail uid)).

(** The interval is changed and every subscriber is told, the one who
    changed it only if [notify_changer] is set. *)
Definition change_interval (val by_uid : Z) (w : world) (notify_changer : bool)
  : M message :=
  old <- gets _interval ;;
  modify (set_interval val) ;;
  write_json COLLAB_FILE [("interval", val)] w ;;
  log (LogInterval old val by_uid) ;;
  let txt := MsgIntervalChanged old val in
  snapshot <- gets (fun s => keys (_subs s)) ;;
  for_each snapshot (notify txt by_uid notify_changer w) ;;
  ret txt.

Definition cmd_price (w : world) : M message :=
  p <- get_price w ;;
  ret (if truthy p
       then match p with Some v => MsgPrice v | None => MsgUnavailable end
       else MsgUnavailable).

(** [ctx.user_data["await_int"] = True] and
    [ctx.user_data.pop("await_int", False)]: [user_data] belongs to the
    user who sent the update, here [user]. *)
Definition set_await_int (user : Z) : M unit :=
  modify (fun s => set_await (user :: await_int s) s).
Definition pop_await_int (user : Z) : M bool :=
  flag <- gets (fun s => existsb (Z.eqb user) (await_int s)) ;;
  modify (fun s => set_await (filter (fun u => negb (user =? u)) (await_int s)) s) ;;
  ret flag.

(** The callback of the inline buttons, pressed by [user] under a
    message of the chat [uid] ([q.message.chat_id]); [None] when no
    branch answers.  In a private chat the two identifiers are the
    same; in a group they differ. *)
Definition cb_btn (user uid : Z) (data : string) (w : world) : M (option message) :=
  if String.eqb data "price" then
    p <- get_price w ;;
    ret (Some (if truthy p
               then match p with Some v => MsgPrice v | None => MsgUnavailable end
               else MsgUnavailable))
  else if String.eqb data "sub" then
    p <- get_price w ;;
    match p with
    | None => ret (Some MsgUnavailableRetry)
    | Some p =>
        modify (fun s => set_subs (dict_set (KInt uid) p (_subs s)) s) ;;
        subs <- gets _subs ;;
        write_json STATE_FILE (dumps_subs subs) w ;;
        log (LogSubscribed uid p) ;;
        ret (Some MsgSubscribed)
    end
  else if String.eqb data "unsub" then
    popped <- gets (fun s => dict_get (KInt uid) (_subs s)) ;;
    modify (fun s => set_subs (dict_remove (KInt uid) (_subs s)) s) ;;
    (if truthy popped
     then subs <- gets _subs ;;
          write_json STATE_FILE (dumps_subs subs) w ;;
          log (LogUnsubscribed uid)
     else ret tt) ;;
    ret (Some MsgUnsubscribed)
  else if String.eqb data "interval" then
    n <- gets _interval ;;
    ret (Some (MsgCurrentInterval n))
  else if startswith "step_" data then
    if String.eqb data "step_custom" then
      set_await_int user ;;
      ret (Some MsgAskInterval)
    else
      match after_first "_" data with
      | None => raise OtherError
      | Some rest =>
          match py_int rest with
          | None => raise ValueError
          | Some val =>
              txt <- change_interval val uid w false ;;
              ret (Some txt)
          end
      end
  else ret None.

(** Free text sent by [user] in the chat [uid]
    ([u.effective_chat.id]): only after that user pressed the "enter a
    value" button, in this chat or in another. *)
Definition msg_text (user uid : Z) (text : string) (w : world) : M (option message) :=
  awaited <- pop_await_int user ;;
  if negb awaited then ret None
  else
    parsed <- try_except
                (match py_int text with
                 | None => raise ValueError
                 | Some val => if val <=? 0 then raise ValueError else ret (Some val)
                 end)
                is_ValueError (fun _ => ret None) ;;
    match parsed with
    | None => ret (Some MsgNeedPositive)
    | Some val =>
        txt <- change_interval val uid w false ;;
        ret (Some txt)
    end.

(* ================================================================== *)
(** * Watcher *)
(* ================================================================== *)

(** The test of the loop body: [abs(p - last) >= step]. *)
Definition due (p last : float) (step : Z) : bool :=
  PyFloat.ge_int (PyFloat.abs (PyFloat.sub p last)) step.

(** The body of [for uid, last in list(_subs.items())]. *)
Definition alert (p : float) (step : Z) (w : world) (item : key * float) : M unit :=
  let (uid, last) := item in
  if due p last step then
    let diff := PyFloat.sub p last in
    let txt := MsgAlert (PyFloat.gt_zero diff) p diff step in
    try_except
      (send_message uid txt w ;;
       modify (fun s => set_subs (dict_set uid p (_subs s)) s))
      is_TelegramError
      (fun _ => log_d uid (LogSendError uid))
  else ret tt.

(** One iteration of [while True] (the sleep apart). *)
Definition watcher_cycle (w : world) : M unit :=
  try_except
    (p <- get_price w ;;
     match p with
     | Some p =>
         step <- gets _interval ;;
         snapshot <- gets _subs ;;
         for_each snapshot (alert p step w) ;;
         subs <- gets _subs ;;
         write_json STATE_FILE (dumps_subs subs) w
     | None => ret tt
     end)
    any_exception
    (fun e => log (LogWatcherException e)).

(* ================================================================== *)
(** * Start-up *)
(* ================================================================== *)

(** The module as imported, on a given disk.  [main] below is the
    loading part of the source's [main], up to its first log line; for
    the files a [disk] can hold it always returns. *)
Definition boot (fs : disk) : state :=
  mkState [] DEFAULT_INT 0 [] fs [] [].

Definition main : M unit :=
  doc <- read_json STATE_FILE [] ;;
  modify (set_subs (loads_subs doc)) ;;
  collab <- read_json COLLAB_FILE [("interval", DEFAULT_INT)] ;;
  modify (set_interval (doc_get "interval" collab DEFAULT_INT)) ;;
  s <- gets (fun s => s) ;;
  log (LogStart (List.length (_subs s)) (_interval s)).

(** A fresh process on the files the previous one left. *)
Definition restart (s : state) : state := state_of (main (boot (files s))).

(* ================================================================== *)
(** * Menus and the start command *)
(* ================================================================== *)

(** The captions of the inline buttons. *)
Inductive caption : Type :=
| CapSubscribed          (* the check mark of a subscriber *)
| CapUnsubscribe
| CapSubscribe
| CapInterval
| CapPrice
| CapNumber (n : Z)      (* [str(n)] *)
| CapEnter.              (* "enter a value" *)

(** [InlineKeyboardButton(caption, callback_data=data)]. *)
Record button : Type := mkButton {
  shown : caption;
  callback_data : string
}.

Definition keyboard : Type := list (list button).

Definition main_kbd (is_subscribed : bool) : keyboard :=
  (if is_subscribed
   then [[mkButton CapSubscribed "noop"; mkButton CapUnsubscribe "unsub"]]
   else [[mkButton CapSubscribe "sub"]])
  ++ [[mkButton CapInterval "interval"]]
  ++ [[mkButton CapPrice "price"]].

(** The [rows] that [cb_btn] attaches to its answer to "interval". *)
Definition interval_rows : keyboard :=
  [ map (fun n => mkButton (CapNumber n) (String.append "step_" (py_str n))) CHOICES;
    [mkButton CapEnter "step_custom"] ].

(** The callback data a keyboard can send. *)
Definition offered (k : keyboard) : list string :=
  map callback_data (List.concat k).

(** [/start]: the welcome text with the current interval, and the main
    keyboard for this chat. *)
Definition cmd_start (uid : Z) : M (Z * keyboard) :=
  n <- gets _interval ;;
  is_sub <- gets (fun s => dict_in (KInt uid) (_subs s)) ;;
  ret (n, main_kbd is_sub).

(* ================================================================== *)
(** * Observations on a step *)
(* ================================================================== *)

(** What was handed to [send_message] between two states of one run. *)
Definition sent_during (s s' : state) : list attempt :=
  skipn (List.length (outbox s)) (outbox s').

Definition logged_during (s s' : state) : list log_entry :=
  skipn (List.length (logged s)) (logged s').

Definition recipient (a : attempt) : key := fst (fst a).

(** The chat [uid] was sent something between [s] and [s']. *)
Definition alerted (uid : key) (s s' : state) : Prop :=
  In uid (map recipient (sent_during s s')).

(** The text of the alert for a baseline [last]. *)
Definition alert_text (p : float) (step : Z) (last : float) : message :=
  MsgAlert (PyFloat.gt_zero (PyFloat.sub p last)) p (PyFloat.sub p last) step.

(** The state after the loop body of the watcher for one item. *)
Definition after_alert (p : float) (step : Z) (w : world) (it : key * float)
  (s : state) : state :=
  if due p (snd it) step then
    if delivers w (fst it)
    then set_subs (dict_set (fst it) p (_subs s))
                  (add_attempt (fst it, alert_text p step (snd it), true) s)
    else add_log_d (fst it) (LogSendError (fst it))
                   (add_attempt (fst it, alert_text p step (snd it), false) s)
  else s.

(** The state after the loop body of [change_interval] for one chat. *)
Definition after_notice (txt : message) (by_uid : Z) (notify_changer : bool)
  (w : world) (uid : key) (s : state) : state :=
  if (key_eqb uid (KInt by_uid) && negb notify_changer)%bool then s
  else if delivers w uid
       then add_attempt (uid, txt, true) s
       else add_log_d uid (LogNotifyFail uid) (add_attempt (uid, txt, false) s).

(** The chats told about a change of interval, in order. *)
Definition told (by_uid : Z) (notify_changer : bool) (l : list key) : list key :=
  filter (fun uid => negb (key_eqb uid (KInt by_uid) && negb notify_changer)) l.

(** The alerts of one cycle over a snapshot, in order. *)
Definition alerts_of (p : float) (step : Z) (w : world) (snapshot : dict)
  : list attempt :=
  map (fun it => (fst it, alert_text p step (snd it), delivers w (fst it)))
      (filter (fun it => due p (snd it) step) snapshot).

(** The delivery errors one cycle over a snapshot writes to the log. *)
Definition send_errors (p : float) (step : Z) (w : world) (snapshot : dict)
  : list log_entry :=
  map (fun it => LogSendError (fst it))
      (filter (fun it => (due p (snd it) step && negb (delivers w (fst it))
                          && is_int_key (fst it))%bool)
              snapshot).

(** The baselines after one cycle over a snapshot. *)
Definition rebase (p : float) (step : Z) (w : world) (snapshot d : dict) : dict :=
  fold_left
    (fun d it =>
       if (due p (snd it) step && delivers w (fst it))%bool
       then dict_set (fst it) p d else d)
    snapshot d.

(** The number of "limit reached" entries in a log. *)
Definition escalations (l : list log_entry) : nat :=
  List.length (filter (fun e => match e with LogFailLimit => true | _ => false end) l).

(** Consecutive calls of [get_price], one per answer of the source. *)
Fixpoint polls (answers : list http_result) (dl : key -> bool) (s : state) : state :=
  match answers with
  | [] => s
  | r :: rest => polls rest dl (state_of (get_price (mkWorld r dl true) s))
  end.

Definition counted_failure (r : http_result) : bool :=
  match r with
  | HttpMalformed | HttpTransport => true
  | _ => false
  end.

(** ** Concrete prices and runs used in the examples *)

Definition price_50000 : float := PyFloat.of_Z 50000.
Definition price_50199_99 : float := PyFloat.of_decimal 5019999 2.
Definition price_50200 : float := PyFloat.of_Z 50200.

Definition all_delivered : key -> bool := fun _ => true.
Definition none_delivered : key -> bool := fun _ => false.

(** A first start: no file yet. *)
Definition fresh : state := state_of (main (boot (mkDisk Missing Missing))).

(** In the runs below every chat is a private chat: the user's
    identifier is the chat's. *)

(** The chat [uid] presses "Subscribe" while the price is [p]. *)
Definition subscribed (uid : Z) (p : float) (s : state) : state :=
  state_of (cb_btn uid uid "sub" (mkWorld (HttpOk p) all_delivered true) s).

(** One subscriber, chat 7, with baseline 50000.00 and the default
    interval of 200. *)
Definition scenario1 : state := subscribed 7 price_50000 fresh.

(** One watcher iteration in which the source answers [p]. *)
Definition cycle_at (p : float) (dl : key -> bool) (s : state) : state :=
  state_of (watcher_cycle (mkWorld (HttpOk p) dl true) s).

(** Two subscribers, chats 7 and 8, both with baseline 50000.00; chat 7
    cannot be reached. *)
Definition scenario2 : state := subscribed 8 price_50000 scenario1.
Definition only_7_fails : key -> bool := fun k => negb (key_eqb k (KInt 7)).

(** The chat [uid] presses "Unsubscribe". *)
Definition unsubscribed (uid : Z) (s : state) : state :=
  state_of (cb_btn uid uid "unsub" (mkWorld HttpTransport all_delivered true) s).

(** The chat [uid] sends the callback data [data]. *)
Definition pressed (uid : Z) (data : string) (s : state) : state :=
  state_of (cb_btn uid uid data (mkWorld HttpTransport all_delivered true) s).

(** The chat [uid] sends the text [text]. *)
Definition typed (uid : Z) (text : string) (s : state) : state :=
  state_of (msg_text uid uid text (mkWorld HttpTransport all_delivered true) s).

(** Chat 7 subscribed while the price source answered 0.0. *)
Definition zero_baseline : state := subscribed 7 PyFloat.zero fresh.

(** Chat 7 subscribed, then the process was started again. *)
Definition restarted1 : state := restart scenario1.

(** Chats 7 and 8 subscribed, then the process was started again; the
    key ["7"] cannot be reached. *)
Definition restarted2 : state := restart scenario2.
Definition str_7_fails : key -> bool := fun k => negb (key_eqb k (KStr "7")).

(** A world in which nothing works: the source cannot be reached, no
    chat accepts a message, the disk refuses the write. *)
Definition offline : world := mkWorld HttpTransport none_delivered false.

(** The same with a price: only the disk refuses the write. *)
Definition disk_full (p : float) : world := mkWorld (HttpOk p) all_delivered false.

(* ================================================================== *)
(** * Dictionaries *)
(* ================================================================== *)

Section Dict.

Lemma key_eqb_eq (a b : key) : key_eqb a b = true <-> a = b.
Proof.
  destruct a as [n|s], b as [m|t]; simpl; split; intro H;
    try discriminate; try (inversion H; subst).
  - apply Z.eqb_eq in H. now subst.
  - apply Z.eqb_refl.
  - apply String.eqb_eq in H. now subst.
  - apply String.eqb_refl.
Qed.

Lemma key_eqb_refl (a : key) : key_eqb a a = true.
Proof. now apply key_eqb_eq. Qed.

Lemma key_eqb_neq (a b : key) : key_eqb a b = false <-> a <> b.
Proof.
  split.
  - intros H E. apply key_eqb_eq in E. congruence.
  - intro H. destruct (key_eqb a b) eqn:E; [|reflexivity].
    apply key_eqb_eq in E. contradiction.
Qed.

Lemma dict_get_set_same k v d : dict_get k (dict_set k v d) = Some v.
Proof.
  induction d as [|[k' v'] d IH]; simpl.
  - now rewrite key_eqb_refl.
  - destruct (key_eqb k k') eqn:E; simpl; now rewrite E.
Qed.

Lemma dict_get_set_other k k' v d :
  k <> k' -> dict_get k' (dict_set k v d) = dict_get k' d.
Proof.
  intro N. induction d as [|[k0 v0] d IH]; simpl.
  - destruct (key_eqb k' k) eqn:E; [|reflexivity].
    apply key_eqb_eq in E. congruence.
  - destruct (key_eqb k k0) eqn:E; simpl.
    + apply key_eqb_eq in E. subst k0.
      destruct (key_eqb k' k) eqn:E'; [|reflexivity].
      apply key_eqb_eq in E'. congruence.
    + now rewrite IH.
Qed.

Lemma dict_get_In k v d : dict_get k d = Some v -> In (k, v) d.
Proof.
  induction d as [|[k' v'] d IH]; simpl; [discriminate|].
  destruct (key_eqb k k') eqn:E.
  - apply key_eqb_eq in E. intro H. inversion H. subst. now left.
  - intro H. right. now apply IH.
Qed.

Lemma In_dict_get k v d :
  NoDup (keys d) -> In (k, v) d -> dict_get k d = Some v.
Proof.
  unfold keys. induction d as [|[k' v'] d IH]; simpl; [contradiction|].
  intros ND [H|H].
  - inversion H. subst. now rewrite key_eqb_refl.
  - inversion ND as [|? ? Hn ND']. subst.
    destruct (key_eqb k k') eqn:E.
    + apply key_eqb_eq in E. subst k'. exfalso. apply Hn.
      change k with (fst (k, v)). now apply in_map.
    + now apply IH.
Qed.

Lemma keys_dict_set k v d :
  keys (dict_set k v d) = if dict_in k d then keys d else keys d ++ [k].
Proof.
  unfold dict_in, keys. induction d as [|[k' v'] d IH]; simpl; [reflexivity|].
  destruct (key_eqb k k') eqn:E; simpl; [reflexivity|].
  rewrite IH. now destruct (dict_get k d).
Qed.

Lemma dict_in_keys k d : dict_in k d = true <-> In k (keys d).
Proof.
  unfold dict_in, keys. induction d as [|[k' v'] d IH]; simpl.
  - split; [discriminate|contradiction].
  - destruct (key_eqb k k') eqn:E.
    + apply key_eqb_eq in E. subst. split; auto.
    + rewrite IH. split; [now right|].
      intros [H|H]; [|assumption].
      subst. now rewrite key_eqb_refl in E.
Qed.

Lemma NoDup_dict_set k v d : NoDup (keys d) -> NoDup (keys (dict_set k v d)).
Proof.
  intro ND. rewrite keys_dict_set.
  destruct (dict_in k d) eqn:E; [assumption|].
  apply NoDup_app; [assumption | repeat constructor; intros [] | ].
  intros x Hx [Hk|[]]. subst x.
  apply dict_in_keys in Hx. congruence.
Qed.

Lemma keys_dict_remove_incl k d x : In x (keys (dict_remove k d)) -> In x (keys d).
Proof.
  unfold keys. induction d as [|[k' v'] d IH]; simpl; [tauto|].
  destruct (key_eqb k k'); simpl; tauto.
Qed.

Lemma NoDup_dict_remove k d : NoDup (keys d) -> NoDup (keys (dict_remove k d)).
Proof.
  unfold keys. induction d as [|[k' v'] d IH]; simpl; [trivial|].
  intro ND. inversion ND as [|? ? Hn ND']. subst.
  destruct (key_eqb k k'); simpl; [assumption|].
  constructor; [|now apply IH].
  intro H. apply Hn. now apply (keys_dict_remove_incl k).
Qed.

Lemma dict_get_remove_same k d :
  NoDup (keys d) -> dict_get k (dict_remove k d) = None.
Proof.
  unfold keys. induction d as [|[k' v'] d IH]; simpl; [trivial|].
  intro ND. inversion ND as [|? ? Hn ND']. subst.
  destruct (key_eqb k k') eqn:E; simpl.
  - apply key_eqb_eq in E. subst k'.
    destruct (dict_get k d) eqn:G; [|reflexivity].
    exfalso. apply Hn. apply dict_get_In in G.
    change k with (fst (k, f)). now apply in_map.
  - rewrite E. now apply IH.
Qed.

End Dict.

(** [str] gives different texts for different integers. *)
Lemma py_str_inj (a b : Z) : py_str a = py_str b -> a = b.
Proof.
  unfold py_str. intro H. apply DecimalZ.to_int_inj.
  assert (G : forall z, NilZero.int_of_string (NilZero.string_of_int (Z.to_int z))
                        = Some (Z.to_int z)).
  { intro z. apply NilZero.isi; destruct z; simpl; try discriminate;
      intro E; inversion E as [E'];
      now apply DecimalPos.Unsigned.to_uint_nonnil in E'. }
  pose proof (G a) as Ga. rewrite H, G in Ga. now inversion Ga.
Qed.

(* ================================================================== *)
(** * The watcher loop *)
(* ================================================================== *)

Section Watcher.

Variables (p : float) (step : Z) (w : world).

(** One loop body never raises: the delivery error is caught. *)
Lemma alert_run uid last s :
  alert p step w (uid, last) s = (Ret tt, after_alert p step w (uid, last) s).
Proof.
  unfold alert, after_alert, try_except, bind, send_message, modify, ret, raise,
    log_d. cbn [fst snd].
  destruct (due p last step); [|reflexivity].
  destruct (delivers w uid); reflexivity.
Qed.

Lemma for_each_alert_cons it l s :
  for_each (it :: l) (alert p step w) s = for_each l (alert p step w) (after_alert p step w it s).
Proof.
  destruct it as [uid last]. cbn [for_each]. unfold bind.
  rewrite alert_run. reflexivity.
Qed.

Lemma for_each_alert_returns snapshot : forall s,
  value_of (for_each snapshot (alert p step w) s) = Ret tt.
Proof.
  induction snapshot as [|it l IH]; intro s; [reflexivity|].
  rewrite for_each_alert_cons. apply IH.
Qed.

Lemma loop_outbox snapshot : forall s,
  outbox (state_of (for_each snapshot (alert p step w) s)) =
  outbox s ++ alerts_of p step w snapshot.
Proof.
  unfold alerts_of.
  induction snapshot as [|[uid last] l IH]; intro s.
  - simpl. now rewrite app_nil_r.
  - rewrite for_each_alert_cons, IH. unfold after_alert. cbn [filter fst snd].
    destruct (due p last step); [|reflexivity].
    destruct (delivers w uid) eqn:E; [|destruct uid]; simpl; rewrite E, <- app_assoc;
      reflexivity.
Qed.

Lemma loop_subs snapshot : forall s,
  _subs (state_of (for_each snapshot (alert p step w) s)) =
  rebase p step w snapshot (_subs s).
Proof.
  unfold rebase.
  induction snapshot as [|[uid last] l IH]; intro s; [reflexivity|].
  rewrite for_each_alert_cons, IH. unfold after_alert. simpl.
  destruct (due p last step); [|reflexivity].
  destruct (delivers w uid); [|destruct uid]; reflexivity.
Qed.

Lemma loop_frame snapshot : forall s,
  let s' := state_of (for_each snapshot (alert p step w) s) in
  _interval s' = _interval s /\ _fail_seq s' = _fail_seq s /\
  await_int s' = await_int s /\ files s' = files s.
Proof.
  induction snapshot as [|[uid last] l IH]; intro s; [simpl; auto|].
  cbv zeta. rewrite for_each_alert_cons.
  destruct (IH (after_alert p step w (uid, last) s)) as (H1 & H2 & H3 & H4).
  rewrite H1, H2, H3, H4. unfold after_alert. cbn [fst snd].
  destruct (due p last step); [|auto].
  destruct (delivers w uid); [|destruct uid]; simpl; auto.
Qed.

(** The log of the loop: an entry for every failed send to an [int]
    key. *)
Lemma loop_logged snapshot : forall s,
  logged (state_of (for_each snapshot (alert p step w) s)) =
  logged s ++ send_errors p step w snapshot.
Proof.
  unfold send_errors.
  induction snapshot as [|[uid last] l IH]; intro s.
  - simpl. now rewrite app_nil_r.
  - rewrite for_each_alert_cons, IH. unfold after_alert. cbn [filter fst snd].
    destruct (due p last step); [|reflexivity].
    destruct (delivers w uid); [|destruct uid]; simpl; try reflexivity.
    now rewrite <- app_assoc.
Qed.

(** A baseline that is already the new price stays the new price. *)
Lemma rebase_keeps_price snapshot : forall d uid,
  dict_get uid d = Some p -> dict_get uid (rebase p step w snapshot d) = Some p.
Proof.
  unfold rebase.
  induction snapshot as [|[k last] l IH]; intros d uid H; [assumption|].
  simpl. apply IH.
  destruct (due p last step && delivers w k)%bool; [|assumption].
  destruct (key_eqb k uid) eqn:E.
  - apply key_eqb_eq in E. subst. apply dict_get_set_same.
  - apply key_eqb_neq in E. now rewrite dict_get_set_other.
Qed.

(** A due subscriber whose alert is delivered gets the new baseline. *)
Lemma rebase_delivered snapshot : forall d uid last,
  In (uid, last) snapshot -> due p last step = true -> delivers w uid = true ->
  dict_get uid (rebase p step w snapshot d) = Some p.
Proof.
  induction snapshot as [|[k v] l IH]; intros d uid last HIn Hdue Hdel;
    [contradiction|].
  destruct HIn as [H|H].
  - inversion H. subst. unfold rebase. simpl. rewrite Hdue, Hdel. simpl.
    apply rebase_keeps_price, dict_get_set_same.
  - unfold rebase. simpl. now apply (IH _ uid last).
Qed.

(** A subscriber whose alert is not delivered keeps its baseline. *)
Lemma rebase_undelivered snapshot : forall d uid,
  delivers w uid = false ->
  dict_get uid (rebase p step w snapshot d) = dict_get uid d.
Proof.
  unfold rebase.
  induction snapshot as [|[k v] l IH]; intros d uid Hdel; [reflexivity|].
  simpl. rewrite IH by assumption.
  destruct (due p v step && delivers w k)%bool eqn:E; [|reflexivity].
  apply andb_true_iff in E. destruct E as [_ E].
  apply dict_get_set_other. intro. subst. congruence.
Qed.

(** A subscriber that is not due keeps its baseline. *)
Lemma rebase_not_due snapshot : forall d uid,
  (forall last, In (uid, last) snapshot -> due p last step = false) ->
  dict_get uid (rebase p step w snapshot d) = dict_get uid d.
Proof.
  unfold rebase.
  induction snapshot as [|[k v] l IH]; intros d uid Hnd; [reflexivity|].
  simpl. rewrite IH by (intros; apply Hnd; now right).
  destruct (due p v step && delivers w k)%bool eqn:E; [|reflexivity].
  apply andb_true_iff in E. destruct E as [E _].
  apply dict_get_set_other. intro. subst.
  rewrite (Hnd v) in E by now left. discriminate.
Qed.

Lemma alerts_of_In snapshot uid :
  In uid (map recipient (alerts_of p step w snapshot)) <->
  exists last, In (uid, last) snapshot /\ due p last step = true.
Proof.
  unfold alerts_of. rewrite map_map. unfold recipient. simpl.
  rewrite in_map_iff. split.
  - intros ([k v] & H1 & H2). simpl in H1. subst.
    apply filter_In in H2. exists v. now simpl in H2.
  - intros (last & H1 & H2). exists (uid, last). split; [reflexivity|].
    apply filter_In. now split.
Qed.

End Watcher.

Lemma sent_during_app s s' l : outbox s' = outbox s ++ l -> sent_during s s' = l.
Proof.
  unfold sent_during. intros ->.
  rewrite skipn_app, skipn_all, Nat.sub_diag. reflexivity.
Qed.

Lemma logged_during_app s s' l : logged s' = logged s ++ l -> logged_during s s' = l.
Proof.
  unfold logged_during. intros ->.
  rewrite skipn_app, skipn_all, Nat.sub_diag. reflexivity.
Qed.

Lemma write_json_run {D} (path : file D) (data : D) w s :
  write_json path data w s =
  (Ret tt, if disk_ok w then set_files (store path data (files s)) s
           else add_log LogWriteFail s).
Proof. unfold write_json, modify, log. now destruct (disk_ok w). Qed.

(** A cycle whose fetch returned a price runs the loop over the
    snapshot and then writes the baselines. *)
Lemma watcher_cycle_eq w s p :
  http w = HttpOk p ->
  watcher_cycle w s =
  write_json STATE_FILE
    (dumps_subs
       (_subs (state_of (for_each (_subs s) (alert p (_interval s) w)
                                  (add_log (LogPrice p) (set_fail_seq 0 s))))))
    w
    (state_of (for_each (_subs s) (alert p (_interval s) w)
                        (add_log (LogPrice p) (set_fail_seq 0 s)))).
Proof.
  intro H.
  set (s1 := add_log (LogPrice p) (set_fail_seq 0 s)).
  assert (G : get_price w s = (Ret (Some p), s1)).
  { unfold get_price. rewrite H. reflexivity. }
  set (s2 := state_of (for_each (_subs s) (alert p (_interval s) w) s1)).
  assert (L : for_each (_subs s) (alert p (_interval s) w) s1 = (Ret tt, s2)).
  { pose proof (for_each_alert_returns p (_interval s) w (_subs s) s1) as R.
    unfold s2, value_of, state_of in *.
    destruct (for_each (_subs s) (alert p (_interval s) w) s1). simpl in *.
    now subst. }
  unfold watcher_cycle, try_except. unfold bind at 1. rewrite G.
  unfold bind at 1. unfold gets at 1. unfold bind at 1. unfold gets at 1.
  change (_subs s1) with (_subs s). change (_interval s1) with (_interval s).
  unfold bind at 1. rewrite L. unfold bind at 1. unfold gets at 1.
  rewrite write_json_run. reflexivity.
Qed.

(** The alerts, the baselines and the files after such a cycle. *)
Lemma watcher_cycle_priced w s p :
  http w = HttpOk p ->
  let s' := state_of (watcher_cycle w s) in
  value_of (watcher_cycle w s) = Ret tt /\
  outbox s' = outbox s ++ alerts_of p (_interval s) w (_subs s) /\
  _subs s' = rebase p (_interval s) w (_subs s) (_subs s) /\
  _interval s' = _interval s /\
  files s' = (if disk_ok w
              then store STATE_FILE (dumps_subs (_subs s')) (files s)
              else files s).
Proof.
  intro H. cbv zeta. rewrite (watcher_cycle_eq w s p H), write_json_run.
  set (s1 := add_log (LogPrice p) (set_fail_seq 0 s)).
  destruct (loop_frame p (_interval s) w (_subs s) s1) as (F1 & F2 & F3 & F4).
  pose proof (loop_outbox p (_interval s) w (_subs s) s1) as O.
  pose proof (loop_subs p (_interval s) w (_subs s) s1) as S.
  unfold value_of, state_of in *. cbn [fst snd].
  destruct (disk_ok w); simpl; rewrite ?O, ?S, ?F1, ?F4; repeat split; reflexivity.
Qed.

(** The log of such a cycle. *)
Lemma watcher_cycle_log w s p :
  http w = HttpOk p ->
  logged_during s (state_of (watcher_cycle w s)) =
    [LogPrice p] ++ send_errors p (_interval s) w (_subs s) ++
    (if disk_ok w then [] else [LogWriteFail]).
Proof.
  intro H. rewrite (watcher_cycle_eq w s p H), write_json_run.
  set (s1 := add_log (LogPrice p) (set_fail_seq 0 s)).
  pose proof (loop_logged p (_interval s) w (_subs s) s1) as LG.
  unfold state_of in *. cbn [snd].
  apply logged_during_app.
  destruct (disk_ok w); simpl; rewrite LG; unfold s1; simpl;
    rewrite <- ?app_assoc; simpl; rewrite ?app_nil_r; reflexivity.
Qed.

(** The delivery errors of a cycle are in its log, for [int] keys. *)
Lemma watcher_cycle_logged w s p uid last :
  http w = HttpOk p ->
  In (uid, last) (_subs s) -> due p last (_interval s) = true ->
  delivers w uid = false -> is_int_key uid = true ->
  In (LogSendError uid) (logged_during s (state_of (watcher_cycle w s))).
Proof.
  intros H HIn Hd Hdel Hk. rewrite (watcher_cycle_log w s p H).
  apply in_or_app. right. apply in_or_app. left. unfold send_errors.
  apply in_map_iff. exists (uid, last). split; [reflexivity|].
  apply filter_In. split; [assumption|]. simpl. now rewrite Hd, Hdel, Hk.
Qed.

(* ================================================================== *)
(** * Floats in the alert test *)
(* ================================================================== *)

Section DueFacts.

Lemma SFcompare_Eq_finite s1 m1 e1 s2 m2 e2 :
  SFcompare (S754_finite s1 m1 e1) (S754_finite s2 m2 e2) = Some Eq ->
  s1 = s2 /\ m1 = m2 /\ e1 = e2.
Proof.
  simpl. destruct s1, s2; try discriminate;
    destruct (Z.compare e1 e2) eqn:E; try discriminate;
    apply Z.compare_eq in E; subst; intro H;
    destruct (Pos.compare_cont Eq m1 m2) eqn:C; try discriminate;
    apply Pos.compare_eq in C; subst; auto.
Qed.

(** [x - x] is a zero or a NaN, so it reaches no positive threshold. *)
Lemma equal_prices_not_due (p last : float) (T : Z) :
  PyFloat.eqb last p = true -> 0 < T -> due p last T = false.
Proof.
  unfold PyFloat.eqb, SFeqb. intros H HT.
  destruct T as [|T|T]; try lia. clear HT.
  destruct (SFcompare last p) as [[| |]|] eqn:C; try discriminate. clear H.
  unfold due, PyFloat.sub, PyFloat.ge_int.
  destruct last as [sl|sl| |sl ml el], p as [sp|sp| |sp mp ep];
    try discriminate;
    try (destruct sl; discriminate); try (destruct sp; discriminate).
  - destruct sl, sp; reflexivity.
  - destruct sl, sp; try discriminate; reflexivity.
  - apply SFcompare_Eq_finite in C. destruct C as (-> & -> & ->).
    unfold SFsub. rewrite Z.sub_diag. reflexivity.
Qed.

(** The boundary is inclusive. *)
Lemma delta_equal_threshold_due (p last : float) (T : Z) :
  PyFloat.compare_int (PyFloat.abs (PyFloat.sub p last)) T = Some Eq ->
  due p last T = true.
Proof. unfold due, PyFloat.ge_int. now intros ->. Qed.

End DueFacts.

(* ================================================================== *)
(** * The broadcast of [change_interval] *)
(* ================================================================== *)

Section Broadcast.

Variables (txt : message) (by_uid : Z) (notify_changer : bool) (w : world).

Lemma notify_run uid s :
  notify txt by_uid notify_changer w uid s =
  (Ret tt, after_notice txt by_uid notify_changer w uid s).
Proof.
  unfold notify, after_notice, try_except, bind, send_message, modify, ret,
    raise, log_d.
  destruct (key_eqb uid (KInt by_uid) && negb notify_changer)%bool;
    [reflexivity|].
  destruct (delivers w uid); reflexivity.
Qed.

Lemma for_each_notice l : forall s,
  for_each l (notify txt by_uid notify_changer w) s =
  (Ret tt, fold_left (fun s uid => after_notice txt by_uid notify_changer w uid s) l s).
Proof.
  induction l as [|uid l IH]; intro s; [reflexivity|].
  cbn [for_each fold_left]. unfold bind. rewrite notify_run. apply IH.
Qed.

Lemma notices_outbox l : forall s,
  outbox (fold_left (fun s uid => after_notice txt by_uid notify_changer w uid s) l s) =
  outbox s ++ map (fun uid => (uid, txt, delivers w uid)) (told by_uid notify_changer l).
Proof.
  unfold told.
  induction l as [|uid l IH]; intro s.
  - simpl. now rewrite app_nil_r.
  - cbn [fold_left filter]. rewrite IH. unfold after_notice.
    destruct (key_eqb uid (KInt by_uid) && negb notify_changer)%bool;
      [reflexivity|].
    simpl. destruct (delivers w uid) eqn:E; [|destruct uid]; simpl;
      now rewrite <- app_assoc.
Qed.

Lemma notices_logged l : forall s,
  logged (fold_left (fun s uid => after_notice txt by_uid notify_changer w uid s) l s) =
  logged s ++
  map LogNotifyFail
      (filter (fun uid => (negb (delivers w uid) && is_int_key uid)%bool)
              (told by_uid notify_changer l)).
Proof.
  unfold told.
  induction l as [|uid l IH]; intro s.
  - simpl. now rewrite app_nil_r.
  - cbn [fold_left filter]. rewrite IH. unfold after_notice.
    destruct (key_eqb uid (KInt by_uid) && negb notify_changer)%bool;
      [reflexivity|].
    simpl. destruct (delivers w uid) eqn:E; [|destruct uid]; simpl;
      try reflexivity.
    now rewrite <- app_assoc.
Qed.

Lemma notices_frame l : forall s,
  let s' := fold_left (fun s uid => after_notice txt by_uid notify_changer w uid s) l s in
  _subs s' = _subs s /\ _interval s' = _interval s /\ files s' = files s /\
  _fail_seq s' = _fail_seq s /\ await_int s' = await_int s.
Proof.
  induction l as [|uid l IH]; intro s; [simpl; auto 6|].
  cbn [fold_left]. cbv zeta.
  destruct (IH (after_notice txt by_uid notify_changer w uid s))
    as (H1 & H2 & H3 & H4 & H5).
  rewrite H1, H2, H3, H4, H5. unfold after_notice.
  destruct (key_eqb uid (KInt by_uid) && negb notify_changer)%bool; [auto 6|].
  destruct (delivers w uid); [|destruct uid]; simpl; auto 6.
Qed.

End Broadcast.

Lemma change_interval_eq val by_uid w nc s :
  change_interval val by_uid w nc s =
  (Ret (MsgIntervalChanged (_interval s) val),
   fold_left
     (fun s' uid =>
        after_notice (MsgIntervalChanged (_interval s) val) by_uid nc w uid s')
     (keys (_subs s))
     (add_log (LogInterval (_interval s) val by_uid)
        (if disk_ok w
         then set_files (store COLLAB_FILE [("interval", val)] (files s))
                        (set_interval val s)
         else add_log LogWriteFail (set_interval val s)))).
Proof.
  unfold change_interval, bind, gets, log, modify, ret.
  rewrite write_json_run. cbv beta iota zeta. rewrite for_each_notice.
  destruct (disk_ok w); reflexivity.
Qed.

(** The interval after [change_interval], the write of the interval and
    the notices. *)
Lemma change_interval_run val by_uid w nc s :
  let r := change_interval val by_uid w nc s in
  let txt := MsgIntervalChanged (_interval s) val in
  value_of r = Ret txt /\
  _interval (state_of r) = val /\
  _subs (state_of r) = _subs s /\
  files (state_of r) =
    (if disk_ok w then store COLLAB_FILE [("interval", val)] (files s)
     else files s) /\
  outbox (state_of r) =
    outbox s ++ map (fun uid => (uid, txt, delivers w uid))
                    (told by_uid nc (keys (_subs s))) /\
  logged (state_of r) =
    logged s ++
    ((if disk_ok w then [] else [LogWriteFail]) ++
     [LogInterval (_interval s) val by_uid]) ++
    map LogNotifyFail
        (filter (fun uid => (negb (delivers w uid) && is_int_key uid)%bool)
                (told by_uid nc (keys (_subs s)))).
Proof.
  cbv zeta. rewrite change_interval_eq. unfold value_of, state_of. cbn [fst snd].
  match goal with |- context [fold_left _ _ ?x] => set (s3 := x) end.
  destruct (notices_frame (MsgIntervalChanged (_interval s) val) by_uid nc w
              (keys (_subs s)) s3) as (H1 & H2 & H3 & _ & _).
  rewrite notices_outbox, notices_logged, H1, H2, H3. unfold s3.
  destruct (disk_ok w); simpl; rewrite <- ?app_assoc; repeat split; reflexivity.
Qed.

(* ================================================================== *)
(** * Properties of the watcher *)
(* ================================================================== *)

Lemma scenario1_keys_NoDup : NoDup (keys (_subs scenario1)).
Proof. vm_compute. repeat constructor. intros []. Qed.

(** C2. In a cycle whose fetch returned [p], a subscriber with baseline
    [last] is sent an alert exactly when [abs(p - last) >= T], for a
    positive interval [T]: a delta equal to [T] triggers, a baseline
    equal to the price never does; a delivered alert moves the baseline
    to [p], and a subscriber that is not due keeps its baseline.  With
    [T = 200] and baseline 50000.00 the price 50199.99 is not due and
    the price 50200.00 is. *)
Theorem watcher_alerts_iff_delta_reaches_threshold
  (s : state) (w : world) (p : float) (uid : key) (last : float) :
  http w = HttpOk p ->
  NoDup (keys (_subs s)) ->
  dict_get uid (_subs s) = Some last ->
  0 < _interval s ->
  (alerted uid s (state_of (watcher_cycle w s)) <->
   due p last (_interval s) = true) /\
  (PyFloat.compare_int (PyFloat.abs (PyFloat.sub p last)) (_interval s) = Some Eq ->
   alerted uid s (state_of (watcher_cycle w s))) /\
  (PyFloat.eqb last p = true ->
   ~ alerted uid s (state_of (watcher_cycle w s))) /\
  (due p last (_interval s) = true -> delivers w uid = true ->
   dict_get uid (_subs (state_of (watcher_cycle w s))) = Some p) /\
  (due p last (_interval s) = false ->
   dict_get uid (_subs (state_of (watcher_cycle w s))) = Some last) /\
  due price_50199_99 price_50000 200 = false /\
  due price_50200 price_50000 200 = true.
Proof.
  intros Hp ND Hget HT.
  destruct (watcher_cycle_priced w s p Hp) as (_ & O & S & _ & _).
  assert (A : alerted uid s (state_of (watcher_cycle w s)) <->
              due p last (_interval s) = true).
  { unfold alerted. rewrite (sent_during_app _ _ _ O), alerts_of_In. split.
    - intros (last' & HIn & Hd).
      apply (In_dict_get _ _ _ ND) in HIn. congruence.
    - intro Hd. exists last. split; [now apply dict_get_In | assumption]. }
  split; [exact A|]. split; [|split; [|split; [|split]]].
  - intro E. apply A. now apply delta_equal_threshold_due.
  - intros E Hal. apply A in Hal.
    rewrite (equal_prices_not_due p last (_interval s) E HT) in Hal.
    discriminate.
  - intros Hd Hdel. rewrite S.
    apply (rebase_delivered p (_interval s) w (_subs s) (_subs s) uid last);
      auto using dict_get_In.
  - intro Hd. rewrite S, rebase_not_due; [assumption|].
    intros last' HIn. apply (In_dict_get _ _ _ ND) in HIn. congruence.
  - split; vm_compute; reflexivity.
Qed.

(** Scenario 1: no alert at 50199.99; an alert at 50200.00, after which
    the baseline is 50200.00. *)
Lemma watcher_alerts_iff_delta_reaches_threshold_witness :
  ~ alerted (KInt 7) scenario1 (cycle_at price_50199_99 all_delivered scenario1) /\
  dict_get (KInt 7) (_subs (cycle_at price_50199_99 all_delivered scenario1))
    = Some price_50000 /\
  alerted (KInt 7) scenario1 (cycle_at price_50200 all_delivered scenario1) /\
  dict_get (KInt 7) (_subs (cycle_at price_50200 all_delivered scenario1))
    = Some price_50200.
Proof.
  destruct (watcher_alerts_iff_delta_reaches_threshold
              scenario1 (mkWorld (HttpOk price_50199_99) all_delivered true)
              price_50199_99 (KInt 7) price_50000
              eq_refl scenario1_keys_NoDup eq_refl eq_refl)
    as (A1 & _ & _ & _ & B1 & N1 & _).
  destruct (watcher_alerts_iff_delta_reaches_threshold
              scenario1 (mkWorld (HttpOk price_50200) all_delivered true)
              price_50200 (KInt 7) price_50000
              eq_refl scenario1_keys_NoDup eq_refl eq_refl)
    as (A2 & _ & _ & U2 & _ & _ & D2).
  unfold cycle_at. split; [|split; [|split]].
  - intro H. apply (proj1 A1) in H.
    change (_interval scenario1) with 200 in H.
    rewrite N1 in H. discriminate.
  - apply B1. exact N1.
  - apply (proj2 A2). exact D2.
  - apply U2; [exact D2 | reflexivity].
Defined.

(** C1, as the code has it.  A due subscriber is sent an alert; its
    baseline becomes the fetched price when the alert was delivered and
    stays what it was when sending raised a delivery error. *)
Theorem baseline_follows_delivered_alert
  (s : state) (w : world) (p : float) (uid : key) (last : float) :
  http w = HttpOk p ->
  dict_get uid (_subs s) = Some last ->
  due p last (_interval s) = true ->
  In (uid, alert_text p (_interval s) last, delivers w uid)
     (sent_during s (state_of (watcher_cycle w s))) /\
  dict_get uid (_subs (state_of (watcher_cycle w s))) =
    Some (if delivers w uid then p else last).
Proof.
  intros Hp Hget Hd.
  destruct (watcher_cycle_priced w s p Hp) as (_ & O & S & _ & _).
  split.
  - rewrite (sent_during_app _ _ _ O). unfold alerts_of.
    apply in_map_iff. exists (uid, last). split; [reflexivity|].
    apply filter_In. split; [now apply dict_get_In | assumption].
  - rewrite S. destruct (delivers w uid) eqn:E.
    + apply (rebase_delivered p (_interval s) w (_subs s) (_subs s) uid last);
        auto using dict_get_In.
    + now rewrite rebase_undelivered.
Qed.

Lemma baseline_follows_delivered_alert_witness :
  dict_get (KInt 7) (_subs (cycle_at price_50200 all_delivered scenario1))
    = Some price_50200 /\
  dict_get (KInt 7) (_subs (cycle_at price_50200 none_delivered scenario1))
    = Some price_50000.
Proof.
  split.
  - exact (proj2 (baseline_follows_delivered_alert
                    scenario1 (mkWorld (HttpOk price_50200) all_delivered true)
                    price_50200 (KInt 7) price_50000 eq_refl eq_refl eq_refl)).
  - exact (proj2 (baseline_follows_delivered_alert
                    scenario1 (mkWorld (HttpOk price_50200) none_delivered true)
                    price_50200 (KInt 7) price_50000 eq_refl eq_refl eq_refl)).
Defined.

(** C1 as stated fails: chat 7 is due at 50200.00 (baseline 50000.00,
    interval 200), the send raises, and the baseline is still
    50000.00 after the cycle. *)
Lemma baseline_kept_when_send_fails :
  dict_get (KInt 7) (_subs scenario1) = Some price_50000 /\
  _interval scenario1 = 200 /\
  due price_50200 price_50000 200 = true /\
  sent_during scenario1 (cycle_at price_50200 none_delivered scenario1) =
    [(KInt 7, alert_text price_50200 200 price_50000, false)] /\
  dict_get (KInt 7) (_subs (cycle_at price_50200 none_delivered scenario1))
    = Some price_50000 /\
  dict_get (KInt 7) (_subs (cycle_at price_50200 none_delivered scenario1))
    <> Some price_50200.
Proof.
  repeat split; try (vm_compute; reflexivity).
  vm_compute. discriminate.
Qed.

(** X23. A delivery failure stays with its recipient.  Whatever chats
    refuse their message, a watcher cycle returns normally, every due
    entry of the registry is sent its alert, one whose alert is
    delivered has its baseline moved to the price, and a failed send to
    an [int] key is logged; and the broadcast of [change_interval]
    returns its text after sending it to every key other than the [int]
    key of the chat that changed the interval, logging the failed sends
    to [int] keys. *)
Theorem delivery_failure_stays_with_its_recipient (s : state) (w : world) :
  (forall p, http w = HttpOk p ->
     value_of (watcher_cycle w s) = Ret tt /\
     forall uid last,
       In (uid, last) (_subs s) -> due p last (_interval s) = true ->
       In (uid, alert_text p (_interval s) last, delivers w uid)
          (sent_during s (state_of (watcher_cycle w s))) /\
       (delivers w uid = true ->
        dict_get uid (_subs (state_of (watcher_cycle w s))) = Some p) /\
       (delivers w uid = false -> is_int_key uid = true ->
        In (LogSendError uid)
           (logged_during s (state_of (watcher_cycle w s))))) /\
  (forall val by_uid,
     value_of (change_interval val by_uid w false s) =
       Ret (MsgIntervalChanged (_interval s) val) /\
     forall uid,
       In uid (keys (_subs s)) -> uid <> KInt by_uid ->
       In (uid, MsgIntervalChanged (_interval s) val, delivers w uid)
          (sent_during s (state_of (change_interval val by_uid w false s))) /\
       (delivers w uid = false -> is_int_key uid = true ->
        In (LogNotifyFail uid)
           (logged_during s (state_of (change_interval val by_uid w false s))))).
Proof.
  split.
  - intros p Hp.
    destruct (watcher_cycle_priced w s p Hp) as (R & O & S & _ & _).
    split; [exact R|]. intros uid last HIn Hd. split; [|split].
    + rewrite (sent_during_app _ _ _ O). unfold alerts_of.
      apply in_map_iff. exists (uid, last). split; [reflexivity|].
      apply filter_In. now split.
    + intro Hdel. rewrite S.
      now apply (rebase_delivered p (_interval s) w (_subs s) (_subs s) uid last).
    + intros Hdel Hk. apply (watcher_cycle_logged w s p uid last); assumption.
  - intros val by_uid.
    destruct (change_interval_run val by_uid w false s)
      as (R & _ & _ & _ & O & L).
    split; [exact R|]. intros uid HIn Hne.
    assert (T : In uid (told by_uid false (keys (_subs s)))).
    { unfold told. apply filter_In. split; [assumption|].
      apply key_eqb_neq in Hne. now rewrite Hne. }
    split.
    + rewrite (sent_during_app _ _ _ O).
      apply in_map_iff. exists uid. now split.
    + intros Hdel Hk. rewrite (logged_during_app _ _ _ L).
      apply in_or_app. right.
      apply in_map. apply filter_In. split; [assumption|]. now rewrite Hdel, Hk.
Qed.

(** Chat 7 cannot be reached: chat 8 is still alerted, its baseline
    moves to 50200.00, and it is still told about a new interval. *)
Lemma delivery_failure_stays_with_its_recipient_witness :
  In (KInt 8, alert_text price_50200 200 price_50000, true)
     (sent_during scenario2 (cycle_at price_50200 only_7_fails scenario2)) /\
  dict_get (KInt 8) (_subs (cycle_at price_50200 only_7_fails scenario2))
    = Some price_50200 /\
  In (LogSendError (KInt 7))
     (logged_during scenario2 (cycle_at price_50200 only_7_fails scenario2)) /\
  In (KInt 8, MsgIntervalChanged 200 500, true)
     (sent_during scenario2
        (state_of (change_interval 500 9
                     (mkWorld HttpTransport only_7_fails true) false scenario2))).
Proof.
  pose proof (delivery_failure_stays_with_its_recipient scenario2
                (mkWorld (HttpOk price_50200) only_7_fails true)) as [W _].
  pose proof (delivery_failure_stays_with_its_recipient scenario2
                (mkWorld HttpTransport only_7_fails true)) as [_ B].
  destruct (W price_50200 eq_refl) as [_ W'].
  destruct (W' (KInt 8) price_50000 (or_intror (or_introl eq_refl)) eq_refl)
    as (S8 & U8 & _).
  destruct (W' (KInt 7) price_50000 (or_introl eq_refl) eq_refl)
    as (_ & _ & L7).
  destruct (B 500 9) as [_ B'].
  destruct (B' (KInt 8) (or_intror (or_introl eq_refl))) as [N8 _].
  { discriminate. }
  unfold cycle_at. split; [exact S8|]. split; [exact (U8 eq_refl)|].
  split; [exact (L7 eq_refl eq_refl)|exact N8].
Defined.

(** C8 fails on the code for the keys a restart loads.  With the
    registry read back from its file the keys are ["7"] and ["8"]; the
    send to ["7"] fails: the failure is caught and ["8"] is still
    alerted and has its baseline moved, but the log call cannot format
    the [str] key with [%d] and nothing is logged beside the price,
    where the same failure before the restart is logged.  The same
    holds for the broadcast of [change_interval]. *)
Theorem failed_send_to_reloaded_key_is_not_logged :
  _subs restarted2 = [(KStr "7", price_50000); (KStr "8", price_50000)] /\
  sent_during restarted2 (cycle_at price_50200 str_7_fails restarted2) =
    [(KStr "7", alert_text price_50200 200 price_50000, false);
     (KStr "8", alert_text price_50200 200 price_50000, true)] /\
  dict_get (KStr "8") (_subs (cycle_at price_50200 str_7_fails restarted2)) =
    Some price_50200 /\
  logged_during restarted2 (cycle_at price_50200 str_7_fails restarted2) =
    [LogPrice price_50200] /\
  logged_during scenario2 (cycle_at price_50200 only_7_fails scenario2) =
    [LogPrice price_50200; LogSendError (KInt 7)] /\
  logged_during restarted2
    (state_of (change_interval 500 9 (mkWorld HttpTransport str_7_fails true)
                 false restarted2)) = [LogInterval 200 500 9] /\
  logged_during scenario2
    (state_of (change_interval 500 9 (mkWorld HttpTransport only_7_fails true)
                 false scenario2)) = [LogInterval 200 500 9; LogNotifyFail (KInt 7)].
Proof. repeat split; vm_compute; reflexivity. Qed.

(* ================================================================== *)
(** * Fetch failures *)
(* ================================================================== *)

Lemma skipn_self {A} (l : list A) : skipn (List.length l) l = [].
Proof. apply skipn_all. Qed.

(** A counted failure: the counter goes up by one, the failure is
    logged, and the limit entry follows when the counter has reached
    the limit. *)
Lemma get_price_failure w s :
  counted_failure (http w) = true ->
  get_price w s =
  (Ret None,
   let s1 := add_log (match http w with
                      | HttpMalformed => LogBadJson (_fail_seq s + 1)
                      | _ => LogHttpError (_fail_seq s + 1)
                      end)
                     (set_fail_seq (_fail_seq s + 1) s) in
   if _fail_seq s + 1 >=? FAIL_LIMIT then add_log LogFailLimit s1 else s1).
Proof.
  unfold get_price, bind, gets, log, modify, ret.
  destruct (http w); try discriminate; intros _; simpl;
    destruct (_fail_seq s + 1 >=? FAIL_LIMIT); reflexivity.
Qed.

Lemma get_price_returns_None w s :
  value_of (get_price w s) = Ret None <-> counted_failure (http w) = true.
Proof.
  split.
  - unfold get_price, bind, gets, log, modify, ret, raise.
    destruct (http w); simpl; try discriminate; reflexivity.
  - intro H. now rewrite get_price_failure.
Qed.

Lemma get_price_success w s p :
  http w = HttpOk p ->
  get_price w s = (Ret (Some p), add_log (LogPrice p) (set_fail_seq 0 s)).
Proof. unfold get_price. now intros ->. Qed.

(** A cycle without a price is the fetch alone. *)
Lemma watcher_cycle_unpriced w s :
  counted_failure (http w) = true ->
  watcher_cycle w s = (Ret tt, state_of (get_price w s)).
Proof.
  intro H. unfold watcher_cycle, try_except, bind.
  rewrite get_price_failure by assumption. reflexivity.
Qed.

(** An iteration of the loop always comes to its end. *)
Lemma watcher_cycle_returns w s : value_of (watcher_cycle w s) = Ret tt.
Proof.
  destruct (http w) as [p| | |] eqn:E.
  - now destruct (watcher_cycle_priced w s p E).
  - rewrite watcher_cycle_unpriced; [reflexivity | now rewrite E].
  - rewrite watcher_cycle_unpriced; [reflexivity | now rewrite E].
  - unfold watcher_cycle, try_except, bind, get_price. rewrite E. reflexivity.
Qed.

Lemma escalations_app l1 l2 :
  escalations (l1 ++ l2) = (escalations l1 + escalations l2)%nat.
Proof. unfold escalations. now rewrite filter_app, length_app. Qed.

Lemma get_price_failure_escalations w s :
  counted_failure (http w) = true ->
  _fail_seq (state_of (get_price w s)) = _fail_seq s + 1 /\
  escalations (logged (state_of (get_price w s))) =
    (escalations (logged s) +
     (if _fail_seq s + 1 >=? FAIL_LIMIT then 1 else 0))%nat.
Proof.
  intro H. rewrite get_price_failure by assumption. unfold state_of. cbn [snd].
  destruct (_fail_seq s + 1 >=? FAIL_LIMIT); simpl;
    rewrite !escalations_app; (split; [reflexivity|]);
    destruct (http w); try discriminate; unfold escalations; simpl; lia.
Qed.

(** Consecutive counted failures: every failure that leaves the counter
    at the limit or above adds one entry. *)
Lemma polls_failures_escalations answers dl : forall s,
  forallb counted_failure answers = true ->
  _fail_seq (polls answers dl s) = _fail_seq s + Z.of_nat (List.length answers) /\
  Z.of_nat (escalations (logged (polls answers dl s))) =
    Z.of_nat (escalations (logged s)) +
    Z.max 0 (_fail_seq s + Z.of_nat (List.length answers) - (FAIL_LIMIT - 1)) -
    Z.max 0 (_fail_seq s - (FAIL_LIMIT - 1)).
Proof.
  induction answers as [|r rest IH]; intros s H.
  - simpl. lia.
  - apply andb_true_iff in H. destruct H as [Hr Hrest].
    cbn [polls].
    destruct (get_price_failure_escalations (mkWorld r dl true) s Hr) as [F E].
    destruct (IH (state_of (get_price (mkWorld r dl true) s)) Hrest) as [F' E'].
    rewrite F', E', F, E. cbn [List.length]. unfold FAIL_LIMIT.
    rewrite Z.geb_leb.
    destruct (5 <=? _fail_seq s + 1) eqn:G;
      [apply Z.leb_le in G | apply Z.leb_gt in G]; lia.
Qed.

(** C4, as the code has it.  Every counted fetch failure that leaves the
    counter of consecutive failures at the limit (5) or above logs the
    "limit reached" entry: [n] consecutive failures from a counter [c]
    log it [max 0 (c + n - 4) - max 0 (c - 4)] times, so from zero once
    at the fifth failure and once more at every further one; a
    successful fetch logs none and puts the counter back to zero; and
    an iteration of the watcher completes whatever the counter is. *)
Theorem failure_limit_logged_at_each_failure_from_the_limit_on
  (s : state) (w : world) (answers : list http_result) :
  forallb counted_failure answers = true ->
  (forall p, http w = HttpOk p ->
     _fail_seq (state_of (get_price w s)) = 0 /\
     escalations (logged (state_of (get_price w s))) = escalations (logged s)) /\
  (counted_failure (http w) = true ->
     value_of (get_price w s) = Ret None /\
     _fail_seq (state_of (get_price w s)) = _fail_seq s + 1 /\
     escalations (logged (state_of (get_price w s))) =
       (escalations (logged s) +
        (if _fail_seq s + 1 >=? FAIL_LIMIT then 1 else 0))%nat) /\
  _fail_seq (polls answers (delivers w) s) =
    _fail_seq s + Z.of_nat (List.length answers) /\
  Z.of_nat (escalations (logged (polls answers (delivers w) s))) =
    Z.of_nat (escalations (logged s)) +
    Z.max 0 (_fail_seq s + Z.of_nat (List.length answers) - 4) -
    Z.max 0 (_fail_seq s - 4) /\
  value_of (watcher_cycle w (polls answers (delivers w) s)) = Ret tt.
Proof.
  intro H. split; [|split; [|split; [|split]]].
  - intros p Hp. rewrite (get_price_success w s p Hp). unfold state_of.
    simpl. split; [reflexivity|]. rewrite escalations_app. simpl.
    unfold escalations at 2. simpl. lia.
  - intro Hf. split; [now apply get_price_returns_None|].
    now apply get_price_failure_escalations.
  - now apply polls_failures_escalations.
  - now apply polls_failures_escalations.
  - apply watcher_cycle_returns.
Qed.

(** From a fresh start: four failures log no limit entry, five log
    one, seven log three, and a success in between starts the count
    again. *)
Lemma failure_limit_logged_at_each_failure_from_the_limit_on_witness :
  escalations (logged (polls (repeat HttpTransport 4) all_delivered fresh)) = 0%nat /\
  escalations (logged (polls (repeat HttpTransport 5) all_delivered fresh)) = 1%nat /\
  escalations (logged (polls (repeat HttpMalformed 7) all_delivered fresh)) = 3%nat /\
  _fail_seq
    (state_of (get_price (mkWorld (HttpOk price_50000) all_delivered true)
                 (polls (repeat HttpTransport 5) all_delivered fresh))) = 0.
Proof.
  pose proof (failure_limit_logged_at_each_failure_from_the_limit_on
                fresh (mkWorld HttpTransport all_delivered true)
                (repeat HttpTransport 4) eq_refl) as (_ & _ & _ & E4 & _).
  pose proof (failure_limit_logged_at_each_failure_from_the_limit_on
                fresh (mkWorld HttpTransport all_delivered true)
                (repeat HttpTransport 5) eq_refl) as (_ & _ & _ & E5 & _).
  pose proof (failure_limit_logged_at_each_failure_from_the_limit_on
                fresh (mkWorld HttpTransport all_delivered true)
                (repeat HttpMalformed 7) eq_refl) as (_ & _ & _ & E7 & _).
  pose proof (failure_limit_logged_at_each_failure_from_the_limit_on
                (polls (repeat HttpTransport 5) all_delivered fresh)
                (mkWorld (HttpOk price_50000) all_delivered true)
                [] eq_refl) as (R & _).
  cbn [delivers] in E4, E5, E7.
  split; [|split; [|split]].
  - apply Nat2Z.inj. rewrite E4. reflexivity.
  - apply Nat2Z.inj. rewrite E5. reflexivity.
  - apply Nat2Z.inj. rewrite E7. reflexivity.
  - exact (proj1 (R price_50000 eq_refl)).
Defined.

(** C4 as stated fails: after five consecutive failures the entry has
    been logged once, and the sixth consecutive failure logs it again
    although no successful fetch came in between. *)
Lemma failure_limit_logged_again_at_the_sixth_failure :
  escalations (logged (polls (repeat HttpTransport 5) all_delivered fresh)) = 1%nat /\
  _fail_seq (polls (repeat HttpTransport 5) all_delivered fresh) = 5 /\
  logged_during (polls (repeat HttpTransport 5) all_delivered fresh)
                (polls (repeat HttpTransport 6) all_delivered fresh)
    = [LogHttpError 6; LogFailLimit] /\
  escalations (logged (polls (repeat HttpTransport 6) all_delivered fresh)) = 2%nat.
Proof. repeat split; vm_compute; reflexivity. Qed.

(* ================================================================== *)
(** * A fetch that returns nothing *)
(* ================================================================== *)

Lemma sent_during_same s s' : outbox s' = outbox s -> sent_during s s' = [].
Proof. unfold sent_during. intros ->. apply skipn_self. Qed.

(** A fetch that returns [None] touches the counter and the log only. *)
Lemma get_price_None_frame w s :
  counted_failure (http w) = true ->
  _subs (state_of (get_price w s)) = _subs s /\
  _interval (state_of (get_price w s)) = _interval s /\
  files (state_of (get_price w s)) = files s /\
  outbox (state_of (get_price w s)) = outbox s /\
  await_int (state_of (get_price w s)) = await_int s.
Proof.
  intro H. rewrite get_price_failure by assumption. unfold state_of. cbn [snd].
  cbv zeta. destruct (_fail_seq s + 1 >=? FAIL_LIMIT); simpl; auto 6.
Qed.

(** C9. A watcher cycle whose fetch returned nothing sends no message,
    leaves every baseline and the interval as they were, and writes no
    file. *)
Theorem cycle_without_price_changes_nothing (s : state) (w : world) :
  value_of (get_price w s) = Ret None ->
  value_of (watcher_cycle w s) = Ret tt /\
  sent_during s (state_of (watcher_cycle w s)) = [] /\
  _subs (state_of (watcher_cycle w s)) = _subs s /\
  _interval (state_of (watcher_cycle w s)) = _interval s /\
  files (state_of (watcher_cycle w s)) = files s.
Proof.
  intro H. apply get_price_returns_None in H.
  rewrite (watcher_cycle_unpriced w s H).
  destruct (get_price_None_frame w s H) as (S & I & F & O & _).
  unfold value_of, state_of in *. cbn [fst snd].
  repeat split; auto using sent_during_same.
Qed.

Lemma cycle_without_price_changes_nothing_witness :
  sent_during scenario2
    (state_of (watcher_cycle (mkWorld HttpTransport all_delivered true) scenario2))
    = [] /\
  _subs (state_of (watcher_cycle (mkWorld HttpMalformed all_delivered true) scenario2))
    = _subs scenario2 /\
  files (state_of (watcher_cycle (mkWorld HttpMalformed all_delivered true) scenario2))
    = files scenario2.
Proof.
  pose proof (cycle_without_price_changes_nothing scenario2
                (mkWorld HttpTransport all_delivered true) eq_refl)
    as (_ & O & _).
  pose proof (cycle_without_price_changes_nothing scenario2
                (mkWorld HttpMalformed all_delivered true) eq_refl)
    as (_ & _ & S & _ & F).
  exact (conj O (conj S F)).
Defined.

(** C6. When the fetch returns nothing, "Subscribe" answers that the
    price is unavailable; the registry, the entry of that chat, the
    interval and both files are as before. *)
Theorem subscribe_without_price_changes_nothing (s : state) (user uid : Z) (w : world) :
  value_of (get_price w s) = Ret None ->
  value_of (cb_btn user uid "sub" w s) = Ret (Some MsgUnavailableRetry) /\
  _subs (state_of (cb_btn user uid "sub" w s)) = _subs s /\
  dict_get (KInt uid) (_subs (state_of (cb_btn user uid "sub" w s))) =
    dict_get (KInt uid) (_subs s) /\
  _interval (state_of (cb_btn user uid "sub" w s)) = _interval s /\
  files (state_of (cb_btn user uid "sub" w s)) = files s /\
  sent_during s (state_of (cb_btn user uid "sub" w s)) = [].
Proof.
  intro H. apply get_price_returns_None in H.
  assert (E : cb_btn user uid "sub" w s =
              (Ret (Some MsgUnavailableRetry), state_of (get_price w s))).
  { unfold cb_btn. cbn [String.eqb Ascii.eqb Bool.eqb]. unfold bind at 1.
    rewrite get_price_failure by assumption. reflexivity. }
  rewrite E.
  destruct (get_price_None_frame w s H) as (S & I & F & O & _).
  unfold value_of, state_of in *. cbn [fst snd].
  rewrite S. repeat split; auto using sent_during_same.
Qed.

Lemma subscribe_without_price_changes_nothing_witness :
  value_of (cb_btn 9 9 "sub" (mkWorld HttpTransport all_delivered true) scenario1)
    = Ret (Some MsgUnavailableRetry) /\
  dict_get (KInt 9)
    (_subs (state_of (cb_btn 9 9 "sub" (mkWorld HttpTransport all_delivered true)
                        scenario1))) = None /\
  files (state_of (cb_btn 9 9 "sub" (mkWorld HttpTransport all_delivered true)
                     scenario1)) = files scenario1.
Proof.
  pose proof (subscribe_without_price_changes_nothing scenario1 9 9
                (mkWorld HttpTransport all_delivered true) eq_refl)
    as (R & _ & G & _ & F & _).
  exact (conj R (conj G F)).
Defined.

(* ================================================================== *)
(** * Price queries *)
(* ================================================================== *)

Lemma eqb_zero_is_zero (p : float) :
  PyFloat.eqb p PyFloat.zero = true -> PyFloat.truthy p = false.
Proof.
  unfold PyFloat.eqb, SFeqb, PyFloat.zero.
  destruct p as [sg|sg| |sg m e]; simpl; try reflexivity; try discriminate;
    destruct sg; discriminate.
Qed.

Lemma cmd_price_value w s :
  value_of (cmd_price w s) =
  match value_of (get_price w s) with
  | Ret (Some p) => Ret (if PyFloat.truthy p then MsgPrice p else MsgUnavailable)
  | Ret None => Ret MsgUnavailable
  | Raise e => Raise e
  end.
Proof.
  unfold cmd_price, bind, ret, value_of.
  destruct (get_price w s) as [[[p|]|e] s']; reflexivity.
Qed.

Lemma cb_btn_price_value user uid w s :
  value_of (cb_btn user uid "price" w s) =
  match value_of (get_price w s) with
  | Ret (Some p) =>
      Ret (Some (if PyFloat.truthy p then MsgPrice p else MsgUnavailable))
  | Ret None => Ret (Some MsgUnavailable)
  | Raise e => Raise e
  end.
Proof.
  unfold cb_btn. cbn [String.eqb Ascii.eqb Bool.eqb].
  unfold bind, ret, value_of.
  destruct (get_price w s) as [[[p|]|e] s']; reflexivity.
Qed.

(** C10. Both price queries answer by the truthiness of what
    [get_price] returned: a fetched price [p] is shown when [p] is
    truthy and reported as unavailable otherwise, so a fetched price
    equal to 0.0 gets the very answer of a failed fetch. *)
Theorem price_query_reports_zero_price_as_unavailable
  (s : state) (user uid : Z) (w w' : world) (p : float) :
  http w = HttpOk p ->
  counted_failure (http w') = true ->
  value_of (cmd_price w s) =
    Ret (if PyFloat.truthy p then MsgPrice p else MsgUnavailable) /\
  value_of (cb_btn user uid "price" w s) =
    Ret (Some (if PyFloat.truthy p then MsgPrice p else MsgUnavailable)) /\
  value_of (cmd_price w' s) = Ret MsgUnavailable /\
  value_of (cb_btn user uid "price" w' s) = Ret (Some MsgUnavailable) /\
  (PyFloat.eqb p PyFloat.zero = true ->
   value_of (cmd_price w s) = value_of (cmd_price w' s) /\
   value_of (cb_btn user uid "price" w s) = value_of (cb_btn user uid "price" w' s)).
Proof.
  intros Hp Hf.
  assert (A : value_of (cmd_price w s) =
              Ret (if PyFloat.truthy p then MsgPrice p else MsgUnavailable)).
  { rewrite cmd_price_value, (get_price_success w s p Hp). reflexivity. }
  assert (B : value_of (cb_btn user uid "price" w s) =
              Ret (Some (if PyFloat.truthy p then MsgPrice p else MsgUnavailable))).
  { rewrite cb_btn_price_value, (get_price_success w s p Hp). reflexivity. }
  assert (C : value_of (cmd_price w' s) = Ret MsgUnavailable).
  { rewrite cmd_price_value, (get_price_failure w' s Hf). reflexivity. }
  assert (D : value_of (cb_btn user uid "price" w' s) = Ret (Some MsgUnavailable)).
  { rewrite cb_btn_price_value, (get_price_failure w' s Hf). reflexivity. }
  repeat split; try assumption.
  - rewrite A, C. now rewrite (eqb_zero_is_zero p H).
  - rewrite B, D. now rewrite (eqb_zero_is_zero p H).
Qed.

Lemma price_query_reports_zero_price_as_unavailable_witness :
  value_of (cmd_price (mkWorld (HttpOk PyFloat.zero) all_delivered true) fresh)
    = Ret MsgUnavailable /\
  value_of (cb_btn 7 7 "price" (mkWorld (HttpOk PyFloat.zero) all_delivered true) fresh)
    = Ret (Some MsgUnavailable) /\
  value_of (cmd_price (mkWorld (HttpOk price_50000) all_delivered true) fresh)
    = Ret (MsgPrice price_50000).
Proof.
  pose proof (price_query_reports_zero_price_as_unavailable fresh 7 7
                (mkWorld (HttpOk PyFloat.zero) all_delivered true)
                (mkWorld HttpTransport all_delivered true)
                PyFloat.zero eq_refl eq_refl) as (A & B & _).
  pose proof (price_query_reports_zero_price_as_unavailable fresh 7 7
                (mkWorld (HttpOk price_50000) all_delivered true)
                (mkWorld HttpTransport all_delivered true)
                price_50000 eq_refl eq_refl) as (C & _).
  exact (conj A (conj B C)).
Defined.

(* ================================================================== *)
(** * Saving and reloading *)
(* ================================================================== *)

Lemma restart_subs s :
  _subs (restart s) =
  loads_subs (match state_json (files s) with Doc d => d | _ => [] end).
Proof.
  destruct s as [d i f a [[| |sd] [| |cd]] l o]; reflexivity.
Qed.

Lemma restart_interval s :
  _interval (restart s) =
  doc_get "interval"
    (match collab_json (files s) with
     | Doc d => d
     | _ => [("interval", DEFAULT_INT)]
     end) DEFAULT_INT.
Proof.
  destruct s as [d i f a [[| |sd] [| |cd]] l o]; reflexivity.
Qed.

Lemma restart_files s : files (restart s) = files s.
Proof.
  destruct s as [d i f a [[| |sd] [| |cd]] l o]; reflexivity.
Qed.

(** A reloaded registry has [str] keys only. *)
Lemma loads_subs_keys doc k :
  In k (keys (loads_subs doc)) -> exists name, k = KStr name.
Proof.
  unfold loads_subs.
  assert (G : forall acc,
             (forall k, In k (keys acc) -> exists name, k = KStr name) ->
             forall k,
               In k (keys (fold_left
                             (fun d nv => dict_set (KStr (fst nv)) (snd nv) d)
                             doc acc)) ->
               exists name, k = KStr name).
  { induction doc as [|[n v] doc IH]; intros acc Hacc k0; [apply Hacc|].
    simpl. apply IH. intros k1. rewrite keys_dict_set.
    destruct (dict_in (KStr n) acc); [apply Hacc|].
    intro H. apply in_app_or in H. destruct H as [H|[H|[]]]; [now apply Hacc|].
    now exists n. }
  apply G. intros k0 [].
Qed.

(** So a registry with an [int] key is not what its saved copy reloads
    to. *)
Lemma reload_differs_on_int_key s n v :
  In (KInt n, v) (_subs s) ->
  _subs (restart s) <> _subs s.
Proof.
  intros HIn E. rewrite restart_subs in E.
  assert (K : In (KInt n) (keys (_subs s))).
  { unfold keys. change (KInt n) with (fst (KInt n, v)). now apply in_map. }
  rewrite <- E in K. apply loads_subs_keys in K. destruct K as [name K].
  discriminate.
Qed.

(** The interval written by [change_interval] is the one a restart
    reads. *)
Lemma interval_survives_restart val by_uid w nc s :
  disk_ok w = true ->
  _interval (restart (state_of (change_interval val by_uid w nc s))) = val.
Proof.
  intro H. rewrite restart_interval.
  destruct (change_interval_run val by_uid w nc s) as (_ & _ & _ & F & _).
  rewrite F, H. reflexivity.
Qed.

Lemma cb_btn_sub_priced user uid w s p :
  http w = HttpOk p ->
  cb_btn user uid "sub" w s =
  (Ret (Some MsgSubscribed),
   add_log (LogSubscribed uid p)
     (if disk_ok w
      then set_files
             (store STATE_FILE (dumps_subs (dict_set (KInt uid) p (_subs s)))
                    (files s))
             (set_subs (dict_set (KInt uid) p (_subs s))
                       (add_log (LogPrice p) (set_fail_seq 0 s)))
      else add_log LogWriteFail
             (set_subs (dict_set (KInt uid) p (_subs s))
                       (add_log (LogPrice p) (set_fail_seq 0 s))))).
Proof.
  intro Hp. unfold cb_btn. cbn [String.eqb Ascii.eqb Bool.eqb].
  unfold bind at 1. rewrite (get_price_success w s p Hp).
  unfold bind, gets, log, modify, ret. rewrite write_json_run.
  destruct (disk_ok w); reflexivity.
Qed.

Lemma cb_btn_unsub user uid w s :
  cb_btn user uid "unsub" w s =
  (Ret (Some MsgUnsubscribed),
   if truthy (dict_get (KInt uid) (_subs s))
   then add_log (LogUnsubscribed uid)
          (if disk_ok w
           then set_files
                  (store STATE_FILE (dumps_subs (dict_remove (KInt uid) (_subs s)))
                         (files s))
                  (set_subs (dict_remove (KInt uid) (_subs s)) s)
           else add_log LogWriteFail
                  (set_subs (dict_remove (KInt uid) (_subs s)) s))
   else set_subs (dict_remove (KInt uid) (_subs s)) s).
Proof.
  unfold cb_btn. cbn [String.eqb Ascii.eqb Bool.eqb].
  unfold bind, gets, log, modify, ret.
  destruct (truthy (dict_get (KInt uid) (_subs s))); [|reflexivity].
  rewrite write_json_run. destruct (disk_ok w); reflexivity.
Qed.

(** "Subscribe" with a price writes the registry it leaves. *)
Lemma subscribe_persists user uid w s p :
  http w = HttpOk p -> disk_ok w = true ->
  dict_get (KInt uid) (_subs (state_of (cb_btn user uid "sub" w s))) = Some p /\
  state_json (files (state_of (cb_btn user uid "sub" w s))) =
    Doc (dumps_subs (_subs (state_of (cb_btn user uid "sub" w s)))).
Proof.
  intros Hp Hd. rewrite (cb_btn_sub_priced user uid w s p Hp), Hd.
  unfold state_of. simpl. split; [apply dict_get_set_same | reflexivity].
Qed.

(** "Unsubscribe" writes the registry it leaves when the baseline it
    removed is truthy. *)
Lemma unsubscribe_persists user uid w s v :
  dict_get (KInt uid) (_subs s) = Some v -> PyFloat.truthy v = true ->
  disk_ok w = true ->
  _subs (state_of (cb_btn user uid "unsub" w s)) = dict_remove (KInt uid) (_subs s) /\
  state_json (files (state_of (cb_btn user uid "unsub" w s))) =
    Doc (dumps_subs (_subs (state_of (cb_btn user uid "unsub" w s)))).
Proof.
  intros Hg Ht Hd. rewrite cb_btn_unsub, Hg, Hd. cbn [truthy]. rewrite Ht.
  unfold state_of. simpl. split; reflexivity.
Qed.

(** "Unsubscribe" removes the entry and writes nothing when the baseline
    it removed is falsy. *)
Lemma unsubscribe_skips_write user uid w s v :
  dict_get (KInt uid) (_subs s) = Some v -> PyFloat.truthy v = false ->
  _subs (state_of (cb_btn user uid "unsub" w s)) = dict_remove (KInt uid) (_subs s) /\
  files (state_of (cb_btn user uid "unsub" w s)) = files s.
Proof.
  intros Hg Ht. rewrite cb_btn_unsub, Hg. cbn [truthy]. rewrite Ht.
  unfold state_of. simpl. split; reflexivity.
Qed.

(** C3 fails on the code.  Chat 7 subscribes at 50000.00; the registry
    [{7: 50000.0}] is saved as [{"7": 50000.0}]; the restarted process
    holds [{"7": 50000.0}], with a [str] key (value and interval are
    the same).  For the restarted process chat 7 is not a subscriber:
    "Unsubscribe" removes nothing, and "Subscribe" adds a second entry
    for the same chat. *)
Theorem reload_turns_int_keys_into_str_keys :
  _subs scenario1 = [(KInt 7, price_50000)] /\
  state_json (files scenario1) = Doc [("7", price_50000)] /\
  _subs (restart scenario1) = [(KStr "7", price_50000)] /\
  _subs (restart scenario1) <> _subs scenario1 /\
  _interval (restart scenario1) = _interval scenario1 /\
  dict_in (KInt 7) (_subs scenario1) = true /\
  dict_in (KInt 7) (_subs (restart scenario1)) = false /\
  _subs (unsubscribed 7 (restart scenario1)) = [(KStr "7", price_50000)] /\
  _subs (subscribed 7 price_50200 (restart scenario1)) =
    [(KStr "7", price_50000); (KInt 7, price_50200)].
Proof.
  repeat split; try (vm_compute; reflexivity).
  apply (reload_differs_on_int_key scenario1 7 price_50000). now left.
Qed.

(** C5 fails on the code at a baseline of 0.0.  Chat 7 subscribes while
    the price is 0.0 and the registry [{7: 0.0}] is written; then
    "Unsubscribe" empties the registry in memory and writes nothing, so
    the file still lists chat 7 and a restart brings the subscription
    back. *)
Theorem unsubscribe_at_zero_baseline_is_not_written :
  _subs zero_baseline = [(KInt 7, PyFloat.zero)] /\
  state_json (files zero_baseline) = Doc [("7", PyFloat.zero)] /\
  _subs (unsubscribed 7 zero_baseline) = [] /\
  files (unsubscribed 7 zero_baseline) = files zero_baseline /\
  state_json (files (unsubscribed 7 zero_baseline)) <>
    Doc (dumps_subs (_subs (unsubscribed 7 zero_baseline))) /\
  _subs (restart (unsubscribed 7 zero_baseline)) = [(KStr "7", PyFloat.zero)] /\
  state_json (files (unsubscribed 7 scenario1)) =
    Doc (dumps_subs (_subs (unsubscribed 7 scenario1))).
Proof.
  repeat split; try (vm_compute; reflexivity).
  vm_compute. discriminate.
Qed.

(* ================================================================== *)
(** * The interval *)
(* ================================================================== *)

Lemma msg_text_eq user uid text w s :
  msg_text user uid text w s =
  if existsb (Z.eqb user) (await_int s) then
    match py_int text with
    | Some val =>
        if val <=? 0
        then (Ret (Some MsgNeedPositive),
              set_await (filter (fun u => negb (user =? u)) (await_int s)) s)
        else (Ret (Some (MsgIntervalChanged (_interval s) val)),
              state_of (change_interval val uid w false
                          (set_await (filter (fun u => negb (user =? u))
                                             (await_int s)) s)))
    | None =>
        (Ret (Some MsgNeedPositive),
         set_await (filter (fun u => negb (user =? u)) (await_int s)) s)
    end
  else (Ret None, set_await (filter (fun u => negb (user =? u)) (await_int s)) s).
Proof.
  unfold msg_text, pop_await_int, bind, gets, modify, ret, try_except, raise.
  destruct (existsb (Z.eqb user) (await_int s)); [|reflexivity].
  destruct (py_int text) as [val|]; [|reflexivity].
  destruct (val <=? 0); [reflexivity|].
  cbn [negb is_ValueError]. rewrite change_interval_eq. reflexivity.
Qed.

(** Free text never makes the interval non-positive, and a rejected text
    changes neither the interval, nor the registry, nor the files. *)
Lemma msg_text_keeps_interval_positive user uid text w s :
  0 < _interval s -> 0 < _interval (state_of (msg_text user uid text w s)).
Proof.
  intro H. rewrite msg_text_eq.
  destruct (existsb (Z.eqb user) (await_int s)); [|exact H].
  destruct (py_int text) as [val|]; [|exact H].
  destruct (val <=? 0) eqn:E; [exact H|].
  apply Z.leb_gt in E. unfold state_of at 1. cbn [snd].
  destruct (change_interval_run val uid w false
              (set_await (filter (fun u => negb (user =? u)) (await_int s)) s))
    as (_ & I & _).
  now rewrite I.
Qed.

Lemma msg_text_rejects_nonpositive user uid text w s val :
  existsb (Z.eqb user) (await_int s) = true ->
  py_int text = Some val -> val <= 0 ->
  value_of (msg_text user uid text w s) = Ret (Some MsgNeedPositive) /\
  _interval (state_of (msg_text user uid text w s)) = _interval s /\
  _subs (state_of (msg_text user uid text w s)) = _subs s /\
  files (state_of (msg_text user uid text w s)) = files s /\
  outbox (state_of (msg_text user uid text w s)) = outbox s.
Proof.
  intros Ha Hp Hv. rewrite msg_text_eq, Ha, Hp.
  apply Z.leb_le in Hv. rewrite Hv. repeat split; reflexivity.
Qed.

(** The buttons of the interval menu carry the values of [CHOICES]. *)
Lemma cb_btn_offered_step n user uid w s :
  In n CHOICES ->
  cb_btn user uid (String.append "step_" (py_str n)) w s =
  (txt <- change_interval n uid w false ;; ret (Some txt)) s.
Proof. intros [<-|[<-|[<-|[<-|[]]]]]; reflexivity. Qed.

Lemma offered_step_sets_positive_interval n user uid w s :
  In n CHOICES ->
  0 < _interval (state_of (cb_btn user uid (String.append "step_" (py_str n)) w s)).
Proof.
  intro H. rewrite (cb_btn_offered_step n user uid w s H).
  unfold bind, ret. rewrite change_interval_eq. unfold state_of. cbn [snd].
  pose proof (change_interval_run n uid w false s) as (_ & I & _).
  rewrite change_interval_eq in I. unfold state_of in I. cbn [snd] in I.
  rewrite I. destruct H as [<-|[<-|[<-|[<-|[]]]]]; reflexivity.
Qed.

(** C7 fails on the code.  The free-text path refuses [0] and leaves
    the interval at 200, but the callback path does not check the
    value it parses: the callback data [step_0] sets the interval to 0
    and [step_-5] sets it to -5, the value is written to the file, and
    a restart reads it back without a check (as it does for a file
    holding 0).  With the interval at 0 the watcher alerts chat 7 at an
    unchanged price. *)
Theorem callback_step_sets_nonpositive_interval :
  value_of (msg_text 7 7 "0" (mkWorld HttpTransport all_delivered true)
              (pressed 7 "step_custom" scenario1)) = Ret (Some MsgNeedPositive) /\
  _interval (typed 7 "0" (pressed 7 "step_custom" scenario1)) = 200 /\
  value_of (cb_btn 7 7 "step_0" (mkWorld HttpTransport all_delivered true) scenario1)
    = Ret (Some (MsgIntervalChanged 200 0)) /\
  _interval (pressed 7 "step_0" scenario1) = 0 /\
  collab_json (files (pressed 7 "step_0" scenario1)) = Doc [("interval", 0)] /\
  _interval (pressed 7 "step_-5" scenario1) = -5 /\
  _interval (restart (pressed 7 "step_0" scenario1)) = 0 /\
  _interval (state_of (main (boot (mkDisk Missing (Doc [("interval", 0)]))))) = 0 /\
  sent_during (pressed 7 "step_0" scenario1)
    (cycle_at price_50000 all_delivered (pressed 7 "step_0" scenario1)) =
    [(KInt 7, alert_text price_50000 0 price_50000, true)].
Proof. repeat split; vm_compute; reflexivity. Qed.

(* ================================================================== *)
(** * The registry never repeats a key *)
(* ================================================================== *)

Section RegistryKeys.

Lemma get_price_subs w s : _subs (state_of (get_price w s)) = _subs s.
Proof.
  unfold get_price, bind, gets, log, modify, ret, raise, state_of.
  destruct (http w); simpl; try reflexivity;
    destruct (_fail_seq s + 1 >=? FAIL_LIMIT); reflexivity.
Qed.

Lemma rebase_NoDup p step w snapshot : forall d,
  NoDup (keys d) -> NoDup (keys (rebase p step w snapshot d)).
Proof.
  unfold rebase. induction snapshot as [|it l IH]; intros d ND; [assumption|].
  simpl. apply IH.
  destruct (due p (snd it) step && delivers w (fst it))%bool;
    [now apply NoDup_dict_set | assumption].
Qed.

Lemma loads_subs_NoDup doc : NoDup (keys (loads_subs doc)).
Proof.
  unfold loads_subs.
  assert (G : forall acc,
             NoDup (keys acc) ->
             NoDup (keys (fold_left
                            (fun d nv => dict_set (KStr (fst nv)) (snd nv) d)
                            doc acc))).
  { induction doc as [|nv doc IH]; intros acc ND; [assumption|].
    simpl. apply IH. now apply NoDup_dict_set. }
  apply G. constructor.
Qed.

Lemma restart_NoDup s : NoDup (keys (_subs (restart s))).
Proof. rewrite restart_subs. apply loads_subs_NoDup. Qed.

Lemma watcher_cycle_NoDup w s :
  NoDup (keys (_subs s)) -> NoDup (keys (_subs (state_of (watcher_cycle w s)))).
Proof.
  intro ND. destruct (http w) as [p| | |] eqn:E.
  - destruct (watcher_cycle_priced w s p E) as (_ & _ & S & _).
    rewrite S. now apply rebase_NoDup.
  - rewrite watcher_cycle_unpriced by now rewrite E.
    unfold state_of at 1. cbn [snd]. now rewrite get_price_subs.
  - rewrite watcher_cycle_unpriced by now rewrite E.
    unfold state_of at 1. cbn [snd]. now rewrite get_price_subs.
  - unfold watcher_cycle, try_except, bind, get_price. rewrite E. exact ND.
Qed.

Lemma change_interval_NoDup val by_uid w nc s :
  NoDup (keys (_subs s)) ->
  NoDup (keys (_subs (state_of (change_interval val by_uid w nc s)))).
Proof.
  intro ND. destruct (change_interval_run val by_uid w nc s) as (_ & _ & S & _).
  now rewrite S.
Qed.

Lemma msg_text_NoDup user uid text w s :
  NoDup (keys (_subs s)) ->
  NoDup (keys (_subs (state_of (msg_text user uid text w s)))).
Proof.
  intro ND. rewrite msg_text_eq.
  destruct (existsb (Z.eqb user) (await_int s)); [|exact ND].
  destruct (py_int text) as [val|]; [|exact ND].
  destruct (val <=? 0); [exact ND|].
  unfold state_of at 1. cbn [snd]. now apply change_interval_NoDup.
Qed.

Lemma cb_btn_NoDup user uid data w s :
  NoDup (keys (_subs s)) ->
  NoDup (keys (_subs (state_of (cb_btn user uid data w s)))).
Proof.
  intro ND. unfold cb_btn.
  destruct (String.eqb data "price").
  { pose proof (get_price_subs w s) as G. unfold bind, ret, state_of in *.
    destruct (get_price w s) as [[a|e] s']; cbn [snd] in *; rewrite G;
      exact ND. }
  destruct (String.eqb data "sub").
  { pose proof (get_price_subs w s) as G. unfold bind at 1. unfold state_of in *.
    destruct (get_price w s) as [[[p|]|e] s']; unfold ret; cbn [snd] in *;
      try (rewrite G; exact ND).
    unfold bind, gets, log, modify. rewrite write_json_run.
    destruct (disk_ok w); simpl; rewrite G; now apply NoDup_dict_set. }
  destruct (String.eqb data "unsub").
  { unfold bind, gets, log, modify, ret.
    destruct (truthy (dict_get (KInt uid) (_subs s)));
      [rewrite write_json_run; destruct (disk_ok w)|]; simpl;
      now apply NoDup_dict_remove. }
  destruct (String.eqb data "interval"); [exact ND|].
  destruct (startswith "step_" data); [|exact ND].
  destruct (String.eqb data "step_custom"); [exact ND|].
  destruct (after_first "_" data) as [rest|]; [|exact ND].
  destruct (py_int rest) as [val|]; [|exact ND].
  unfold bind, ret. rewrite change_interval_eq. unfold state_of. cbn [snd].
  pose proof (change_interval_NoDup val uid w false s ND) as H.
  rewrite change_interval_eq in H. exact H.
Qed.

End RegistryKeys.


(* ================================================================== *)
(** * Subscribing and unsubscribing *)
(* ================================================================== *)

Lemma dict_remove_absent k d : dict_get k d = None -> dict_remove k d = d.
Proof.
  induction d as [|[k' v'] d IH]; simpl; [reflexivity|].
  destruct (key_eqb k k'); [discriminate|].
  intro H. now rewrite IH.
Qed.

Lemma dict_get_remove_other k k' d :
  k <> k' -> dict_get k' (dict_remove k d) = dict_get k' d.
Proof.
  intro N. induction d as [|[k0 v0] d IH]; simpl; [reflexivity|].
  destruct (key_eqb k k0) eqn:E; simpl.
  - apply key_eqb_eq in E. subst k0.
    destruct (key_eqb k' k) eqn:E'; [|reflexivity].
    apply key_eqb_eq in E'. congruence.
  - now rewrite IH.
Qed.

(** X1. "Subscribe" while the source answers [p] and the disk takes the
    write: the chat is answered that it is subscribed, its baseline is
    [p], every other baseline is what it was, the registry file holds
    exactly the registry, and the interval, its file and the outbox are
    untouched. *)
Theorem subscribe_writes_through (user uid : Z) (w : world) (s : state) (p : float) :
  http w = HttpOk p -> disk_ok w = true ->
  value_of (cb_btn user uid "sub" w s) = Ret (Some MsgSubscribed) /\
  dict_get (KInt uid) (_subs (state_of (cb_btn user uid "sub" w s))) = Some p /\
  (forall k, k <> KInt uid ->
     dict_get k (_subs (state_of (cb_btn user uid "sub" w s))) = dict_get k (_subs s)) /\
  state_json (files (state_of (cb_btn user uid "sub" w s))) =
    Doc (dumps_subs (_subs (state_of (cb_btn user uid "sub" w s)))) /\
  collab_json (files (state_of (cb_btn user uid "sub" w s))) = collab_json (files s) /\
  _interval (state_of (cb_btn user uid "sub" w s)) = _interval s /\
  outbox (state_of (cb_btn user uid "sub" w s)) = outbox s.
Proof.
  intros Hp Hd. rewrite (cb_btn_sub_priced user uid w s p Hp), Hd.
  unfold value_of, state_of. simpl.
  repeat split; auto using dict_get_set_same.
  intros k Hk. apply dict_get_set_other. congruence.
Qed.

Lemma subscribe_writes_through_witness :
  dict_get (KInt 8) (_subs (subscribed 8 price_50200 scenario1)) = Some price_50200 /\
  dict_get (KInt 7) (_subs (subscribed 8 price_50200 scenario1)) = Some price_50000 /\
  state_json (files (subscribed 8 price_50200 scenario1)) =
    Doc [("7", price_50000); ("8", price_50200)].
Proof.
  destruct (subscribe_writes_through 8 8
              (mkWorld (HttpOk price_50200) all_delivered true) scenario1
              price_50200 eq_refl eq_refl) as (_ & G & O & F & _).
  split; [exact G|]. split.
  - rewrite O; [reflexivity | discriminate].
  - exact F.
Defined.

(** X2. "Subscribe" with a price touches one entry only, the one under
    the [int] key of the chat.  When the registry has that key, its
    keys and their order stay as they are and that baseline becomes the
    current price; when it has not, the key is added at the end; every
    other entry keeps its baseline.  A key read from the file is
    another key: after a restart the chat of ["7"] that subscribes
    again is held under both ["7"] and [7]. *)
Theorem subscribe_again_resets_baseline (user uid : Z) (w : world) (s : state) (p : float) :
  http w = HttpOk p ->
  keys (_subs (state_of (cb_btn user uid "sub" w s))) =
    (if dict_in (KInt uid) (_subs s) then keys (_subs s)
     else keys (_subs s) ++ [KInt uid]) /\
  dict_get (KInt uid) (_subs (state_of (cb_btn user uid "sub" w s))) = Some p /\
  (forall k, k <> KInt uid ->
     dict_get k (_subs (state_of (cb_btn user uid "sub" w s))) =
     dict_get k (_subs s)) /\
  keys (_subs (subscribed 7 price_50200 restarted1)) = [KStr "7"; KInt 7].
Proof.
  intro Hp. rewrite (cb_btn_sub_priced user uid w s p Hp). unfold state_of.
  assert (O : forall k, k <> KInt uid ->
                dict_get k (dict_set (KInt uid) p (_subs s)) = dict_get k (_subs s)).
  { intros k Hk. apply dict_get_set_other. congruence. }
  destruct (disk_ok w); simpl; repeat split;
    auto using keys_dict_set, dict_get_set_same.
Qed.

Lemma subscribe_again_resets_baseline_witness :
  keys (_subs (subscribed 7 price_50200 scenario2)) = [KInt 7; KInt 8] /\
  dict_get (KInt 7) (_subs (subscribed 7 price_50200 scenario2)) = Some price_50200 /\
  dict_get (KInt 8) (_subs (subscribed 7 price_50200 scenario2)) = Some price_50000.
Proof.
  destruct (subscribe_again_resets_baseline 7 7
              (mkWorld (HttpOk price_50200) all_delivered true) scenario2
              price_50200 eq_refl) as (K & G & O & _).
  split; [exact K|]. split; [exact G|].
  unfold subscribed. rewrite O; [reflexivity | discriminate].
Defined.

(** X3. "Subscribe" while the disk refuses the write: the chat is still
    answered that it is subscribed and is in the registry in memory,
    the failure is logged, and the files are as before, so a restart
    comes back without this subscription. *)
Theorem subscribe_survives_write_failure (user uid : Z) (w : world) (s : state) (p : float) :
  http w = HttpOk p -> disk_ok w = false ->
  value_of (cb_btn user uid "sub" w s) = Ret (Some MsgSubscribed) /\
  dict_get (KInt uid) (_subs (state_of (cb_btn user uid "sub" w s))) = Some p /\
  files (state_of (cb_btn user uid "sub" w s)) = files s /\
  logged_during s (state_of (cb_btn user uid "sub" w s)) =
    [LogPrice p; LogWriteFail; LogSubscribed uid p] /\
  _subs (restart (state_of (cb_btn user uid "sub" w s))) = _subs (restart s).
Proof.
  intros Hp Hd. rewrite (cb_btn_sub_priced user uid w s p Hp), Hd.
  unfold value_of, state_of. cbn [fst snd].
  split; [reflexivity|]. split; [apply dict_get_set_same|].
  split; [reflexivity|]. split.
  - apply logged_during_app. simpl. now rewrite <- !app_assoc.
  - now rewrite !restart_subs.
Qed.

Lemma subscribe_survives_write_failure_witness :
  dict_get (KInt 8) (_subs (state_of (cb_btn 8 8 "sub" (disk_full price_50200) scenario1)))
    = Some price_50200 /\
  _subs (restart (state_of (cb_btn 8 8 "sub" (disk_full price_50200) scenario1)))
    = [(KStr "7", price_50000)].
Proof.
  destruct (subscribe_survives_write_failure 8 8 (disk_full price_50200) scenario1
              price_50200 eq_refl eq_refl) as (_ & G & _ & _ & R).
  split; [exact G|]. rewrite R. reflexivity.
Defined.

Lemma removed_name_is_gone (uid : Z) (d : dict) (v : float) :
  NoDup (map key_name (keys d)) ->
  dict_get (KInt uid) d = Some v ->
  forall k, In k (keys (dict_remove (KInt uid) d)) -> key_name k <> py_str uid.
Proof.
  unfold keys. induction d as [|[k0 v0] d IH]; intros ND Hg k Hk;
    [discriminate|].
  cbn [map fst] in ND. inversion ND as [|? ? Hn ND']. subst.
  cbn [dict_get dict_remove] in Hg, Hk.
  destruct (key_eqb (KInt uid) k0) eqn:E.
  - apply key_eqb_eq in E. subst k0. intro Ek. apply Hn.
    pose proof (in_map key_name _ _ Hk) as X. rewrite Ek in X. exact X.
  - destruct Hk as [Hk|Hk].
    + simpl in Hk. subst k0. intro Ek. apply Hn.
      apply dict_get_In in Hg.
      pose proof (in_map key_name _ _ (in_map fst _ _ Hg)) as X.
      cbn [fst] in X. rewrite Ek. exact X.
    + now apply (IH ND' Hg).
Qed.

(** X4. "Unsubscribe" with a writable disk, in a registry that holds
    every chat once (the names of its keys are distinct), by a chat held
    under its [int] key with a baseline that is not zero: no entry of
    that chat is left, under any key; every other entry keeps its
    baseline; and the registry file holds exactly the registry that is
    left. *)
Theorem unsubscribe_writes_through (user uid : Z) (w : world) (s : state) (v : float) :
  NoDup (map key_name (keys (_subs s))) ->
  dict_get (KInt uid) (_subs s) = Some v -> PyFloat.truthy v = true ->
  disk_ok w = true ->
  value_of (cb_btn user uid "unsub" w s) = Ret (Some MsgUnsubscribed) /\
  dict_get (KInt uid) (_subs (state_of (cb_btn user uid "unsub" w s))) = None /\
  (forall k, In k (keys (_subs (state_of (cb_btn user uid "unsub" w s)))) ->
     key_name k <> py_str uid) /\
  (forall k, k <> KInt uid ->
     dict_get k (_subs (state_of (cb_btn user uid "unsub" w s))) = dict_get k (_subs s)) /\
  state_json (files (state_of (cb_btn user uid "unsub" w s))) =
    Doc (dumps_subs (_subs (state_of (cb_btn user uid "unsub" w s)))) /\
  _interval (state_of (cb_btn user uid "unsub" w s)) = _interval s.
Proof.
  intros NDn Hg Ht Hd.
  assert (ND : NoDup (keys (_subs s))) by now apply NoDup_map_inv in NDn.
  rewrite cb_btn_unsub, Hg, Hd. cbn [truthy]. rewrite Ht.
  unfold value_of, state_of. simpl.
  split; [reflexivity|]. split; [now apply dict_get_remove_same|].
  split; [now apply (removed_name_is_gone uid (_subs s) v)|].
  split; [|split; reflexivity].
  intros k Hk. apply dict_get_remove_other. congruence.
Qed.

Lemma unsubscribe_writes_through_witness :
  _subs (unsubscribed 7 scenario2) = [(KInt 8, price_50000)] /\
  state_json (files (unsubscribed 7 scenario2)) = Doc [("8", price_50000)].
Proof.
  assert (ND : NoDup (map key_name (keys (_subs scenario2)))).
  { vm_compute. repeat constructor; simpl; intuition discriminate. }
  destruct (unsubscribe_writes_through 7 7
              (mkWorld HttpTransport all_delivered true) scenario2 price_50000
              ND eq_refl eq_refl eq_refl) as (_ & _ & _ & _ & F & _).
  split; [reflexivity | exact F].
Defined.

(** X5. "Unsubscribe" by a chat that is not in the registry answers as
    usual and changes nothing at all: no baseline, no file, no log
    entry. *)
Theorem unsubscribe_unknown_chat_changes_nothing (user uid : Z) (w : world) (s : state) :
  dict_get (KInt uid) (_subs s) = None ->
  cb_btn user uid "unsub" w s = (Ret (Some MsgUnsubscribed), s).
Proof.
  intro Hg. rewrite cb_btn_unsub, Hg. cbn [truthy].
  rewrite (dict_remove_absent _ _ Hg). now destruct s.
Qed.

Lemma unsubscribe_unknown_chat_changes_nothing_witness :
  cb_btn 9 9 "unsub" offline scenario2 = (Ret (Some MsgUnsubscribed), scenario2).
Proof.
  exact (unsubscribe_unknown_chat_changes_nothing 9 9 offline scenario2 eq_refl).
Defined.

(* ================================================================== *)
(** * Changing the interval *)
(* ================================================================== *)

(** X6. The interval set by [change_interval] is the one a restarted
    process reads when the write went through; when the disk refused
    it, the new interval holds in memory only, the failure is logged,
    and a restart reads what the file held before. *)
Theorem interval_change_and_restart
  (val by_uid : Z) (w : world) (nc : bool) (s : state) :
  _interval (state_of (change_interval val by_uid w nc s)) = val /\
  (disk_ok w = true ->
   collab_json (files (state_of (change_interval val by_uid w nc s))) =
     Doc [("interval", val)] /\
   _interval (restart (state_of (change_interval val by_uid w nc s))) = val) /\
  (disk_ok w = false ->
   files (state_of (change_interval val by_uid w nc s)) = files s /\
   In LogWriteFail (logged_during s (state_of (change_interval val by_uid w nc s))) /\
   _interval (restart (state_of (change_interval val by_uid w nc s))) =
     _interval (restart s)).
Proof.
  destruct (change_interval_run val by_uid w nc s) as (_ & I & _ & F & _ & L).
  split; [exact I|]. split; intro Hd; rewrite Hd in *.
  - split; [now rewrite F | now apply interval_survives_restart].
  - split; [exact F|]. split.
    + rewrite (logged_during_app _ _ _ L). now left.
    + now rewrite !restart_interval, F.
Qed.

Lemma interval_change_and_restart_witness :
  _interval (restart (state_of (change_interval 500 7
                                  (mkWorld HttpTransport all_delivered true)
                                  false scenario1))) = 500 /\
  _interval (state_of (change_interval 500 7 offline false scenario1)) = 500 /\
  _interval (restart (state_of (change_interval 500 7 offline false scenario1)))
    = 200.
Proof.
  destruct (interval_change_and_restart 500 7
              (mkWorld HttpTransport all_delivered true) false scenario1)
    as (_ & Hok & _).
  destruct (interval_change_and_restart 500 7 offline false scenario1)
    as (I & _ & Hko).
  destruct (Hok eq_refl) as (_ & R1).
  destruct (Hko eq_refl) as (_ & _ & R2).
  split; [exact R1|]. split; [exact I|]. rewrite R2. reflexivity.
Defined.

Lemma told_everyone by_uid l : told by_uid true l = l.
Proof.
  unfold told. induction l as [|k l IH]; [reflexivity|].
  cbn [filter negb]. rewrite andb_false_r. cbn [negb]. f_equal. exact IH.
Qed.

Lemma told_others by_uid l :
  told by_uid false l = filter (fun k => negb (key_eqb k (KInt by_uid))) l.
Proof.
  unfold told. apply filter_ext. intro k. cbn [negb]. now rewrite andb_true_r.
Qed.

(** X7. [change_interval] sends its text once to every key of the
    registry, in the order of the registry, leaving out the [int] key
    of the chat that changed the interval unless [notify_changer] is
    set; it changes no baseline and does not touch the registry file.
    In a registry with [int] keys only, the chat that changed the
    interval is therefore not told; under a key read from the file it
    is: after a restart chat 7 changing the interval is sent the text
    under ["7"]. *)
Theorem change_interval_tells_the_other_subscribers
  (val by_uid : Z) (w : world) (nc : bool) (s : state) :
  sent_during s (state_of (change_interval val by_uid w nc s)) =
    map (fun uid => (uid, MsgIntervalChanged (_interval s) val, delivers w uid))
        (if nc then keys (_subs s)
         else filter (fun k => negb (key_eqb k (KInt by_uid))) (keys (_subs s))) /\
  (nc = false ->
   ~ In (KInt by_uid)
        (map recipient (sent_during s (state_of (change_interval val by_uid w nc s))))) /\
  (nc = false ->
   (forall k, In k (keys (_subs s)) -> is_int_key k = true) ->
   ~ In (py_str by_uid)
        (map key_name
           (map recipient
              (sent_during s (state_of (change_interval val by_uid w nc s)))))) /\
  _subs (state_of (change_interval val by_uid w nc s)) = _subs s /\
  state_json (files (state_of (change_interval val by_uid w nc s))) =
    state_json (files s) /\
  map recipient
      (sent_during restarted2
         (state_of (change_interval 500 7
                      (mkWorld HttpTransport all_delivered true) false restarted2)))
    = [KStr "7"; KStr "8"].
Proof.
  destruct (change_interval_run val by_uid w nc s) as (_ & _ & S & F & O & _).
  assert (T : told by_uid nc (keys (_subs s)) =
              if nc then keys (_subs s)
              else filter (fun k => negb (key_eqb k (KInt by_uid))) (keys (_subs s))).
  { destruct nc; [apply told_everyone | apply told_others]. }
  rewrite (sent_during_app _ _ _ O), T.
  assert (R : forall l : list key,
             map recipient
               (map (fun uid => (uid, MsgIntervalChanged (_interval s) val,
                                 delivers w uid)) l) = l).
  { intro l. rewrite map_map. unfold recipient. simpl. apply map_id. }
  rewrite R.
  split; [reflexivity|]. split; [|split; [|split; [|split]]].
  - intros -> H. apply filter_In in H. destruct H as [_ H].
    now rewrite key_eqb_refl in H.
  - intros -> Hint H. apply in_map_iff in H. destruct H as (k & Ek & Hk).
    apply filter_In in Hk. destruct Hk as [Hk Hne].
    specialize (Hint k Hk). destruct k as [n|nm]; [|discriminate].
    simpl in Ek. apply py_str_inj in Ek. subst n.
    now rewrite key_eqb_refl in Hne.
  - exact S.
  - rewrite F. now destruct (disk_ok w).
  - vm_compute. reflexivity.
Qed.

Lemma change_interval_tells_the_other_subscribers_witness :
  map recipient
      (sent_during scenario2
         (state_of (change_interval 500 7
                      (mkWorld HttpTransport all_delivered true) false scenario2)))
    = [KInt 8] /\
  ~ In "7"
       (map key_name
          (map recipient
             (sent_during scenario2
                (state_of (change_interval 500 7
                             (mkWorld HttpTransport all_delivered true) false
                             scenario2))))).
Proof.
  destruct (change_interval_tells_the_other_subscribers 500 7
              (mkWorld HttpTransport all_delivered true) false scenario2)
    as (E & _ & N & _).
  split; [now rewrite E|].
  apply (N eq_refl). intros k [<-|[<-|[]]]; reflexivity.
Defined.

(* ================================================================== *)
(** * Exceptions of the fetch *)
(* ================================================================== *)

(** X8. An exception that [get_price] does not catch is caught by the
    watcher: the iteration ends normally, logs the exception and
    changes nothing else, the failure counter included.  The handlers
    do not catch it: the price query and "Subscribe" raise it and leave
    the state as it was. *)
Theorem uncaught_fetch_exception (w : world) (s : state) (user uid : Z) :
  http w = HttpUnexpected ->
  watcher_cycle w s = (Ret tt, add_log (LogWatcherException OtherError) s) /\
  cmd_price w s = (Raise OtherError, s) /\
  cb_btn user uid "price" w s = (Raise OtherError, s) /\
  cb_btn user uid "sub" w s = (Raise OtherError, s).
Proof.
  intro H.
  assert (G : get_price w s = (Raise OtherError, s)).
  { unfold get_price. rewrite H. reflexivity. }
  repeat split.
  - unfold watcher_cycle, try_except, bind. rewrite G. reflexivity.
  - unfold cmd_price, bind. rewrite G. reflexivity.
  - unfold cb_btn. cbn [String.eqb Ascii.eqb Bool.eqb]. unfold bind.
    rewrite G. reflexivity.
  - unfold cb_btn. cbn [String.eqb Ascii.eqb Bool.eqb]. unfold bind.
    rewrite G. reflexivity.
Qed.

Lemma uncaught_fetch_exception_witness :
  state_of (watcher_cycle (mkWorld HttpUnexpected all_delivered true) scenario2) =
    add_log (LogWatcherException OtherError) scenario2 /\
  value_of (cmd_price (mkWorld HttpUnexpected all_delivered true) scenario2) =
    Raise OtherError.
Proof.
  destruct (uncaught_fetch_exception
              (mkWorld HttpUnexpected all_delivered true) scenario2 7 7 eq_refl)
    as (W & C & _).
  rewrite W, C. split; reflexivity.
Defined.

(* ================================================================== *)
(** * More on the watcher *)
(* ================================================================== *)

Lemma dict_set_present_keys k v d :
  In k (keys d) -> keys (dict_set k v d) = keys d.
Proof.
  intro H. rewrite keys_dict_set.
  apply dict_in_keys in H. now rewrite H.
Qed.

Lemma rebase_keys p step w snapshot : forall d,
  (forall it, In it snapshot -> In (fst it) (keys d)) ->
  keys (rebase p step w snapshot d) = keys d.
Proof.
  unfold rebase. induction snapshot as [|it l IH]; intros d H; [reflexivity|].
  simpl.
  assert (K : keys (if (due p (snd it) step && delivers w (fst it))%bool
                    then dict_set (fst it) p d else d) = keys d).
  { destruct (due p (snd it) step && delivers w (fst it))%bool; [|reflexivity].
    apply dict_set_present_keys, H. now left. }
  rewrite IH; [exact K|].
  intros it' Hit'. rewrite K. apply H. now right.
Qed.

Lemma NoDup_names_filter (f : key * float -> bool) (d : dict) :
  NoDup (map key_name (keys d)) ->
  NoDup (map key_name (map fst (filter f d))).
Proof.
  unfold keys. induction d as [|it l IH]; intro ND; [constructor|].
  cbn [map] in ND. inversion ND as [|? ? Hn ND']. subst. cbn [filter].
  destruct (f it); [|now apply IH].
  cbn [map]. constructor; [|now apply IH].
  intro H. apply Hn. apply in_map_iff in H. destruct H as (k & E & H).
  apply in_map_iff in H. destruct H as (it' & E' & H).
  apply filter_In in H. rewrite <- E, <- E'.
  apply in_map, in_map. tauto.
Qed.

(** X10. In an iteration with a price the alerts go out in the order of
    the registry, one to each key whose baseline is at least the
    interval away from the price.  When no two keys of the registry
    name the same chat, no chat is alerted twice in one iteration; a
    chat held under both its [str] key and its [int] key, as after a
    restart followed by Subscribe, is alerted once for each key. *)
Theorem one_alert_per_due_subscriber (w : world) (s : state) (p : float) :
  http w = HttpOk p ->
  map recipient (sent_during s (state_of (watcher_cycle w s))) =
    keys (filter (fun it => due p (snd it) (_interval s)) (_subs s)) /\
  (NoDup (map key_name (keys (_subs s))) ->
   NoDup (map key_name
            (map recipient (sent_during s (state_of (watcher_cycle w s)))))) /\
  map recipient
      (sent_during (subscribed 7 price_50000 restarted1)
         (cycle_at price_50200 all_delivered
            (subscribed 7 price_50000 restarted1)))
    = [KStr "7"; KInt 7].
Proof.
  intro Hp. destruct (watcher_cycle_priced w s p Hp) as (_ & O & _).
  rewrite (sent_during_app _ _ _ O). unfold alerts_of, keys.
  rewrite map_map. unfold recipient. cbn [fst].
  split; [reflexivity|]. split; [|vm_compute; reflexivity].
  apply NoDup_names_filter.
Qed.

Lemma one_alert_per_due_subscriber_witness :
  map recipient
      (sent_during scenario2 (cycle_at price_50200 only_7_fails scenario2))
    = [KInt 7; KInt 8] /\
  NoDup (map key_name
           (map recipient
              (sent_during scenario2
                 (cycle_at price_50200 only_7_fails scenario2)))) /\
  map recipient
      (sent_during scenario2 (cycle_at price_50199_99 all_delivered scenario2))
    = [].
Proof.
  destruct (one_alert_per_due_subscriber
              (mkWorld (HttpOk price_50200) only_7_fails true) scenario2
              price_50200 eq_refl) as (E & N & _).
  split; [exact E|]. split.
  - apply N. repeat constructor; simpl; intuition discriminate.
  - exact (proj1 (one_alert_per_due_subscriber
                    (mkWorld (HttpOk price_50199_99) all_delivered true) scenario2
                    price_50199_99 eq_refl)).
Defined.

(** X11. An iteration with a price ends by writing the registry: with a
    writable disk the registry file holds exactly the registry the
    iteration leaves, also when nobody was alerted; when the disk
    refuses the write the files are as before, the failure is logged,
    and the baselines in memory are the same as with a writable
    disk. *)
Theorem watcher_writes_the_registry (w : world) (s : state) (p : float) :
  http w = HttpOk p ->
  (disk_ok w = true ->
   state_json (files (state_of (watcher_cycle w s))) =
     Doc (dumps_subs (_subs (state_of (watcher_cycle w s))))) /\
  (disk_ok w = false ->
   files (state_of (watcher_cycle w s)) = files s /\
   In LogWriteFail (logged_during s (state_of (watcher_cycle w s)))) /\
  (forall b,
     _subs (state_of (watcher_cycle (mkWorld (http w) (delivers w) b) s)) =
     _subs (state_of (watcher_cycle w s))).
Proof.
  intro Hp. destruct (watcher_cycle_priced w s p Hp) as (_ & _ & S & _ & F).
  split; [|split].
  - intro Hd. rewrite F, Hd. reflexivity.
  - intro Hd. split; [now rewrite F, Hd|].
    rewrite (watcher_cycle_log w s p Hp), Hd.
    apply in_or_app. right. apply in_or_app. right. now left.
  - intro b.
    destruct (watcher_cycle_priced (mkWorld (http w) (delivers w) b) s p Hp)
      as (_ & _ & S' & _).
    rewrite S, S'. reflexivity.
Qed.

Lemma watcher_writes_the_registry_witness :
  state_json (files (cycle_at price_50200 all_delivered scenario2)) =
    Doc [("7", price_50200); ("8", price_50200)] /\
  files (state_of (watcher_cycle (disk_full price_50200) scenario2)) =
    files scenario2 /\
  _subs (state_of (watcher_cycle (disk_full price_50200) scenario2)) =
    [(KInt 7, price_50200); (KInt 8, price_50200)].
Proof.
  destruct (watcher_writes_the_registry
              (mkWorld (HttpOk price_50200) all_delivered true) scenario2
              price_50200 eq_refl) as (W & _ & _).
  destruct (watcher_writes_the_registry (disk_full price_50200) scenario2
              price_50200 eq_refl) as (_ & D & M).
  split; [exact (W eq_refl)|]. split; [exact (proj1 (D eq_refl))|].
  rewrite <- (M false). reflexivity.
Defined.

Lemma due_self (p : float) (T : Z) : 0 < T -> due p p T = false.
Proof.
  intro HT. destruct (PyFloat.eqb p p) eqn:E.
  - now apply equal_prices_not_due.
  - destruct p as [sg|sg| |sg m e]; try reflexivity.
    + discriminate E.
    + destruct sg; discriminate E.
    + unfold PyFloat.eqb, SFeqb, SFcompare in E.
      rewrite Z.compare_refl, Pos.compare_cont_refl in E.
      destruct sg; discriminate E.
Qed.

(** X12. No second alert for the same move.  When two iterations in a
    row get the same price (registry with distinct keys, positive
    interval), the second alerts only the chats that were due in the
    first and whose alert then failed; if every alert of the first was
    delivered, the second sends nothing. *)
Theorem no_second_alert_at_the_same_price
  (s : state) (w1 w2 : world) (p : float) :
  http w1 = HttpOk p -> http w2 = HttpOk p ->
  NoDup (keys (_subs s)) -> 0 < _interval s ->
  (forall uid,
     alerted uid (state_of (watcher_cycle w1 s))
             (state_of (watcher_cycle w2 (state_of (watcher_cycle w1 s)))) ->
     alerted uid s (state_of (watcher_cycle w1 s)) /\ delivers w1 uid = false) /\
  ((forall uid, delivers w1 uid = true) ->
   sent_during (state_of (watcher_cycle w1 s))
     (state_of (watcher_cycle w2 (state_of (watcher_cycle w1 s)))) = []).
Proof.
  intros H1 H2 ND HT.
  set (s1 := state_of (watcher_cycle w1 s)).
  destruct (watcher_cycle_priced w1 s p H1) as (_ & O1 & S1 & I1 & _).
  fold s1 in O1, S1, I1.
  destruct (watcher_cycle_priced w2 s1 p H2) as (_ & O2 & _).
  assert (ND1 : NoDup (keys (_subs s1))) by now apply watcher_cycle_NoDup.
  assert (A : forall uid,
             alerted uid s1 (state_of (watcher_cycle w2 s1)) ->
             alerted uid s s1 /\ delivers w1 uid = false).
  { intros uid Hal. unfold alerted in *.
    rewrite (sent_during_app _ _ _ O2) in Hal.
    rewrite (sent_during_app _ _ _ O1).
    apply alerts_of_In in Hal. destruct Hal as (last2 & HIn2 & Hd2).
    apply (In_dict_get _ _ _ ND1) in HIn2. rewrite I1 in Hd2.
    rewrite S1 in HIn2.
    destruct (dict_get uid (_subs s)) as [last|] eqn:G.
    - destruct (due p last (_interval s)) eqn:D.
      + destruct (delivers w1 uid) eqn:Dl.
        * rewrite (rebase_delivered p (_interval s) w1 (_subs s) (_subs s)
                     uid last (dict_get_In _ _ _ G) D Dl) in HIn2.
          inversion HIn2. subst last2.
          rewrite (due_self p (_interval s) HT) in Hd2. discriminate.
        * split; [|reflexivity]. apply alerts_of_In. exists last.
          split; [now apply dict_get_In | assumption].
      + rewrite rebase_not_due, G in HIn2.
        * inversion HIn2. subst last2. congruence.
        * intros last' HIn'. apply (In_dict_get _ _ _ ND) in HIn'. congruence.
    - rewrite rebase_not_due, G in HIn2; [discriminate|].
      intros last' HIn'. apply (In_dict_get _ _ _ ND) in HIn'. congruence. }
  split; [exact A|].
  intro Hall.
  destruct (sent_during s1 (state_of (watcher_cycle w2 s1))) as [|a l] eqn:E;
    [reflexivity|].
  destruct (A (recipient a)) as [_ Hf].
  - unfold alerted. rewrite E. now left.
  - rewrite Hall in Hf. discriminate.
Qed.

Lemma no_second_alert_at_the_same_price_witness :
  sent_during (cycle_at price_50200 all_delivered scenario2)
    (cycle_at price_50200 all_delivered
       (cycle_at price_50200 all_delivered scenario2)) = [] /\
  alerted (KInt 7) scenario2 (cycle_at price_50200 only_7_fails scenario2) /\
  only_7_fails (KInt 7) = false.
Proof.
  assert (ND : NoDup (keys (_subs scenario2))).
  { vm_compute. repeat constructor; simpl; intuition discriminate. }
  destruct (no_second_alert_at_the_same_price scenario2
              (mkWorld (HttpOk price_50200) all_delivered true)
              (mkWorld (HttpOk price_50200) all_delivered true)
              price_50200 eq_refl eq_refl ND eq_refl) as (_ & E).
  destruct (no_second_alert_at_the_same_price scenario2
              (mkWorld (HttpOk price_50200) only_7_fails true)
              (mkWorld (HttpOk price_50200) all_delivered true)
              price_50200 eq_refl eq_refl ND eq_refl) as (A & _).
  split; [exact (E (fun _ => eq_refl))|].
  apply (A (KInt 7)). unfold alerted. vm_compute. left. reflexivity.
Defined.

(* ================================================================== *)
(** * Free text *)
(* ================================================================== *)

Lemma state_of_pair {A} (r : result A) (s : state) : state_of (r, s) = s.
Proof. reflexivity. Qed.

Lemma filter_not_awaited uid l :
  existsb (Z.eqb uid) l = false -> filter (fun u => negb (uid =? u)) l = l.
Proof.
  induction l as [|u l IH]; simpl; [reflexivity|].
  destruct (uid =? u); simpl; [discriminate|].
  intro H. now rewrite IH.
Qed.

Lemma existsb_filter_self uid l :
  existsb (Z.eqb uid) (filter (fun u => negb (uid =? u)) l) = false.
Proof.
  induction l as [|u l IH]; simpl; [reflexivity|].
  destruct (uid =? u) eqn:E; simpl; [assumption|]. now rewrite E.
Qed.

Lemma existsb_filter_other uid other l :
  other <> uid ->
  existsb (Z.eqb other) (filter (fun u => negb (uid =? u)) l) =
  existsb (Z.eqb other) l.
Proof.
  intro N. induction l as [|u l IH]; simpl; [reflexivity|].
  destruct (uid =? u) eqn:E; simpl.
  - apply Z.eqb_eq in E. subst u.
    apply Z.eqb_neq in N. now rewrite N.
  - now rewrite IH.
Qed.

Lemma change_interval_await val by_uid w nc s :
  await_int (state_of (change_interval val by_uid w nc s)) = await_int s.
Proof.
  rewrite change_interval_eq. unfold state_of. cbn [snd].
  match goal with |- context [fold_left _ _ ?x] => set (s3 := x) end.
  destruct (notices_frame (MsgIntervalChanged (_interval s) val) by_uid nc w
              (keys (_subs s)) s3) as (_ & _ & _ & _ & A).
  rewrite A. unfold s3. now destruct (disk_ok w).
Qed.

Lemma msg_text_await user uid text w s :
  await_int (state_of (msg_text user uid text w s)) =
  filter (fun u => negb (user =? u)) (await_int s).
Proof.
  rewrite msg_text_eq.
  destruct (existsb (Z.eqb user) (await_int s)); [|reflexivity].
  destruct (py_int text) as [val|]; [|reflexivity].
  destruct (val <=? 0); [reflexivity|].
  unfold state_of at 1. cbn [snd]. now rewrite change_interval_await.
Qed.

(** X13. A text from a user who was not asked for a value is ignored,
    in whichever chat it is written: no answer, and the state is
    exactly what it was, whatever the text is (a valid number
    included). *)
Theorem text_is_ignored_unless_asked (user uid : Z) (text : string) (w : world) (s : state) :
  existsb (Z.eqb user) (await_int s) = false ->
  msg_text user uid text w s = (Ret None, s).
Proof.
  intro H. rewrite msg_text_eq, H, (filter_not_awaited _ _ H). now destruct s.
Qed.

Lemma text_is_ignored_unless_asked_witness :
  msg_text 7 7 "500" (mkWorld HttpTransport all_delivered true) scenario2 =
    (Ret None, scenario2).
Proof.
  exact (text_is_ignored_unless_asked 7 7 "500"
           (mkWorld HttpTransport all_delivered true) scenario2 eq_refl).
Defined.

(** X14. The request for a value belongs to the user who pressed
    "enter a value" and is used up by that user's next text, accepted
    or not, in whichever chat the button was pressed and the text is
    written: the first text is answered, a second one is ignored, and
    what other users were asked is not affected. *)
Theorem value_request_is_used_once
  (user uid uid' uid'' : Z) (text text' : string) (w w' w'' : world) (s : state) :
  value_of (msg_text user uid' text w' (state_of (cb_btn user uid "step_custom" w s)))
    <> Ret None /\
  value_of (msg_text user uid'' text' w''
              (state_of (msg_text user uid' text w'
                           (state_of (cb_btn user uid "step_custom" w s))))) = Ret None /\
  (forall other, other <> user ->
     existsb (Z.eqb other)
       (await_int (state_of (msg_text user uid' text w'
                               (state_of (cb_btn user uid "step_custom" w s))))) =
     existsb (Z.eqb other) (await_int s)).
Proof.
  assert (P : cb_btn user uid "step_custom" w s =
              (Ret (Some MsgAskInterval), set_await (user :: await_int s) s))
    by reflexivity.
  rewrite P. unfold state_of at 1 3 5. cbn [snd].
  set (s1 := set_await (user :: await_int s) s).
  assert (A1 : existsb (Z.eqb user) (await_int s1) = true).
  { unfold s1. simpl. now rewrite Z.eqb_refl. }
  split; [|split].
  - rewrite msg_text_eq, A1.
    destruct (py_int text) as [val|]; [destruct (val <=? 0)|]; discriminate.
  - assert (A2 : existsb (Z.eqb user)
                   (await_int (state_of (msg_text user uid' text w' s1))) = false).
    { rewrite msg_text_await. apply existsb_filter_self. }
    rewrite msg_text_eq, A2. reflexivity.
  - intros other N. rewrite msg_text_await, (existsb_filter_other _ _ _ N).
    unfold s1. simpl. apply Z.eqb_neq in N. now rewrite N.
Qed.

Lemma value_request_is_used_once_witness :
  existsb (Z.eqb 8)
    (await_int (typed 7 "0" (pressed 7 "step_custom" (pressed 8 "step_custom" scenario2))))
    = true /\
  value_of (msg_text 7 7 "500" offline
              (typed 7 "0" (pressed 7 "step_custom" scenario2))) = Ret None.
Proof.
  destruct (value_request_is_used_once 7 7 7 7 "0" "500"
              (mkWorld HttpTransport all_delivered true)
              (mkWorld HttpTransport all_delivered true) offline
              (pressed 8 "step_custom" scenario2)) as (_ & _ & O).
  destruct (value_request_is_used_once 7 7 7 7 "0" "500"
              (mkWorld HttpTransport all_delivered true)
              (mkWorld HttpTransport all_delivered true) offline
              scenario2) as (_ & I & _).
  split; [|exact I].
  unfold typed, pressed. rewrite O; [reflexivity | discriminate].
Defined.

(** X15. A text that reads as a positive integer, written in chat
    [uid] by a user who was asked for a value, sets the interval to
    that integer, answers with the change, writes the interval file
    when the disk allows it, sends the change to every key of the
    registry except the [int] key of that chat, and leaves the registry
    alone.  White space around the digits is accepted; the text is read
    as [int] reads ASCII text. *)
Theorem text_sets_the_interval
  (user uid : Z) (text : string) (w : world) (s : state) (val : Z) :
  existsb (Z.eqb user) (await_int s) = true ->
  py_int text = Some val -> 0 < val ->
  value_of (msg_text user uid text w s) =
    Ret (Some (MsgIntervalChanged (_interval s) val)) /\
  _interval (state_of (msg_text user uid text w s)) = val /\
  (disk_ok w = true ->
   collab_json (files (state_of (msg_text user uid text w s))) =
     Doc [("interval", val)]) /\
  _subs (state_of (msg_text user uid text w s)) = _subs s /\
  sent_during s (state_of (msg_text user uid text w s)) =
    map (fun k => (k, MsgIntervalChanged (_interval s) val, delivers w k))
        (filter (fun k => negb (key_eqb k (KInt uid))) (keys (_subs s))).
Proof.
  intros Ha Hp Hv. rewrite msg_text_eq, Ha, Hp.
  apply Z.leb_gt in Hv. rewrite Hv.
  set (s0 := set_await (filter (fun u => negb (user =? u)) (await_int s)) s).
  destruct (change_interval_run val uid w false s0) as (_ & I & S & F & O & _).
  rewrite !state_of_pair. unfold value_of. cbn [fst].
  split; [reflexivity|]. split; [exact I|]. split; [|split].
  - intro Hd. now rewrite F, Hd.
  - exact S.
  - rewrite <- told_others.
    apply (sent_during_app s (state_of (change_interval val uid w false s0))).
    exact O.
Qed.

Lemma text_sets_the_interval_witness :
  _interval (typed 8 " 500 " (pressed 8 "step_custom" scenario2)) = 500 /\
  sent_during (pressed 8 "step_custom" scenario2)
    (typed 8 " 500 " (pressed 8 "step_custom" scenario2)) =
    [(KInt 7, MsgIntervalChanged 200 500, true)].
Proof.
  destruct (text_sets_the_interval 8 8 " 500 "
              (mkWorld HttpTransport all_delivered true)
              (pressed 8 "step_custom" scenario2) 500 eq_refl eq_refl eq_refl)
    as (_ & I & _ & _ & O).
  split; [exact I | exact O].
Defined.

(* ================================================================== *)
(** * Start-up and reloading *)
(* ================================================================== *)

Lemma doc_get_absent name doc default :
  (forall n v, In (n, v) doc -> n <> name) -> doc_get name doc default = default.
Proof.
  revert default. induction doc as [|[n v] doc IH]; intros default H;
    [reflexivity|].
  simpl. destruct (String.eqb n name) eqn:E.
  - apply String.eqb_eq in E. exfalso. apply (H n v); [now left | assumption].
  - apply IH. intros n' v' HIn. apply (H n' v'). now right.
Qed.

(** X16. Start-up writes no file and falls back to defaults one file
    at a time: a registry file that is missing or is not valid JSON
    gives an empty registry, an interval file that is missing, is not
    valid JSON or is an object without an "interval" member gives the
    default interval of 200; a file that is not valid JSON is logged
    once, a missing one is not. *)
Theorem start_up_falls_back_to_defaults (fs : disk) :
  files (state_of (main (boot fs))) = fs /\
  (state_json fs = Missing \/ state_json fs = Corrupt ->
   _subs (state_of (main (boot fs))) = []) /\
  (collab_json fs = Missing \/ collab_json fs = Corrupt ->
   _interval (state_of (main (boot fs))) = DEFAULT_INT) /\
  (forall doc, collab_json fs = Doc doc ->
     (forall n v, In (n, v) doc -> n <> "interval") ->
     _interval (state_of (main (boot fs))) = DEFAULT_INT) /\
  List.length (filter (fun e => match e with LogReadFail => true | _ => false end)
                      (logged (state_of (main (boot fs))))) =
    ((match state_json fs with Corrupt => 1 | _ => 0 end) +
     (match collab_json fs with Corrupt => 1 | _ => 0 end))%nat.
Proof.
  destruct fs as [[| |sd] [| |cd]]; cbn [state_json collab_json];
    (split; [reflexivity|]);
    (split; [intros [H|H]; (discriminate H || reflexivity)|]);
    (split; [intros [H|H]; (discriminate H || reflexivity)|]);
    (split; [|reflexivity]);
    intros doc H Hn; try discriminate H;
    inversion H; subst; apply doc_get_absent; assumption.
Qed.

Lemma start_up_falls_back_to_defaults_witness :
  _subs (state_of (main (boot (mkDisk Corrupt (Doc [("step", 50)]))))) = [] /\
  _interval (state_of (main (boot (mkDisk Corrupt (Doc [("step", 50)]))))) = 200.
Proof.
  destruct (start_up_falls_back_to_defaults (mkDisk Corrupt (Doc [("step", 50)])))
    as (_ & S & _ & I & _).
  split; [exact (S (or_intror eq_refl))|].
  apply (I [("step", 50)] eq_refl).
  intros n v [H|[]]. inversion H. discriminate.
Defined.

Lemma dict_set_absent k v d : dict_get k d = None -> dict_set k v d = d ++ [(k, v)].
Proof.
  induction d as [|[k' v'] d IH]; simpl; [reflexivity|].
  destruct (key_eqb k k'); [discriminate|].
  intro H. now rewrite IH.
Qed.

Lemma dict_get_None_not_key k d : ~ In k (keys d) -> dict_get k d = None.
Proof.
  intro H. destruct (dict_get k d) eqn:G; [|reflexivity].
  exfalso. apply H. apply dict_in_keys. unfold dict_in. now rewrite G.
Qed.

(** Reading back a saved registry whose names are distinct: the same
    entries in the same order, under the names as keys. *)
Lemma loads_subs_distinct_names (doc : state_doc) : forall acc,
  NoDup (map fst doc) ->
  (forall n, In n (map fst doc) -> ~ In (KStr n) (keys acc)) ->
  fold_left (fun d nv => dict_set (KStr (fst nv)) (snd nv) d) doc acc =
  acc ++ map (fun nv => (KStr (fst nv), snd nv)) doc.
Proof.
  induction doc as [|[n v] doc IH]; intros acc ND Hacc.
  - simpl. now rewrite app_nil_r.
  - inversion ND as [|? ? Hn ND']. subst. cbn [fold_left fst snd map].
    rewrite dict_set_absent
      by (apply dict_get_None_not_key, Hacc; now left).
    rewrite IH; [now rewrite <- app_assoc | assumption |].
    intros n' Hn'. unfold keys. rewrite map_app. cbn [map fst].
    intro H. apply in_app_or in H. destruct H as [H|[H|[]]].
    + apply (Hacc n'); [now right | assumption].
    + inversion H. subst. contradiction.
Qed.

Lemma loads_dumps_subs (d : dict) :
  NoDup (map key_name (keys d)) ->
  loads_subs (dumps_subs d) = map (fun kv => (KStr (key_name (fst kv)), snd kv)) d.
Proof.
  intro ND. unfold loads_subs, dumps_subs.
  rewrite loads_subs_distinct_names.
  - simpl. rewrite map_map. reflexivity.
  - rewrite map_map. cbn [fst]. unfold keys in ND. now rewrite map_map in ND.
  - intros n _ [].
Qed.


Lemma int_keys_have_distinct_names (d : dict) :
  NoDup (keys d) ->
  (forall k, In k (keys d) -> exists n, k = KInt n) ->
  NoDup (map key_name (keys d)).
Proof.
  unfold keys. induction d as [|[k v] d IH]; intros ND Hk; [constructor|].
  inversion ND as [|? ? Hn ND']. subst. cbn [map fst]. constructor.
  - intro H. apply in_map_iff in H. destruct H as (k' & E & Hk').
    destruct (Hk k (or_introl eq_refl)) as [n ->].
    destruct (Hk k' (or_intror Hk')) as [n' ->].
    simpl in E. apply py_str_inj in E. subst. contradiction.
  - apply IH; [assumption|]. intros k' Hk'. apply Hk. now right.
Qed.

Lemma str_keys_have_distinct_names (d : dict) :
  NoDup (keys d) ->
  (forall k, In k (keys d) -> exists n, k = KStr n) ->
  NoDup (map key_name (keys d)) /\
  map (fun kv => (KStr (key_name (fst kv)), snd kv)) d = d.
Proof.
  unfold keys. induction d as [|[k v] d IH]; intros ND Hk;
    [split; [constructor | reflexivity]|].
  inversion ND as [|? ? Hn ND']. subst.
  destruct (IH ND' (fun k' Hk' => Hk k' (or_intror Hk'))) as [IH1 IH2].
  destruct (Hk k (or_introl eq_refl)) as [n ->].
  cbn [map fst snd key_name]. split; [|now rewrite IH2].
  constructor; [|assumption].
  intro H. apply in_map_iff in H. destruct H as (k' & E & Hk').
  destruct (Hk k' (or_intror Hk')) as [n' ->]. simpl in E. subst.
  contradiction.
Qed.

(** X17. A registry with [int] keys that was written to its file comes
    back from a restart with the same baselines in the same order,
    each under the decimal text of its chat identifier: looking up the
    text of [n] after the restart gives what looking up [n] gave
    before. *)
Theorem restart_keeps_baselines_under_text_keys (s : state) :
  NoDup (keys (_subs s)) ->
  (forall k, In k (keys (_subs s)) -> exists n, k = KInt n) ->
  state_json (files s) = Doc (dumps_subs (_subs s)) ->
  _subs (restart s) =
    map (fun kv => (KStr (key_name (fst kv)), snd kv)) (_subs s) /\
  (forall n, dict_get (KStr (py_str n)) (_subs (restart s)) =
             dict_get (KInt n) (_subs s)).
Proof.
  intros ND Hk F.
  assert (E : _subs (restart s) =
              map (fun kv => (KStr (key_name (fst kv)), snd kv)) (_subs s)).
  { rewrite restart_subs, F. apply loads_dumps_subs.
    now apply int_keys_have_distinct_names. }
  split; [exact E|]. intro n. rewrite E. clear E F ND.
  unfold keys in Hk. induction (_subs s) as [|[k v] d IH]; [reflexivity|].
  destruct (Hk k (or_introl eq_refl)) as [m ->].
  cbn [map fst snd key_name dict_get key_eqb].
  rewrite IH by (intros k' Hk'; apply Hk; now right).
  destruct (n =? m) eqn:Enm.
  - apply Z.eqb_eq in Enm. subst. now rewrite String.eqb_refl.
  - destruct (String.eqb (py_str n) (py_str m)) eqn:Es; [|reflexivity].
    apply String.eqb_eq, py_str_inj in Es. apply Z.eqb_neq in Enm. contradiction.
Qed.

Lemma restart_keeps_baselines_under_text_keys_witness :
  _subs (restart scenario2) =
    [(KStr "7", price_50000); (KStr "8", price_50000)] /\
  dict_get (KStr "8") (_subs (restart scenario2)) = Some price_50000.
Proof.
  assert (ND : NoDup (keys (_subs scenario2))).
  { vm_compute. repeat constructor; simpl; intuition discriminate. }
  assert (K : forall k, In k (keys (_subs scenario2)) -> exists n, k = KInt n).
  { intros k [<-|[<-|[]]]; eexists; reflexivity. }
  destruct (restart_keeps_baselines_under_text_keys scenario2 ND K eq_refl)
    as (E & G).
  split; [exact E | exact (G 8)].
Defined.

(** X18. A registry whose keys are all [str] keys, as a registry read
    from the file is, and whose file holds it, is reproduced by a
    restart key for key and baseline for baseline.  So it is after a
    restart followed by an iteration of the watcher with a price and a
    writable disk.  A chat that subscribes after a restart is held
    under an [int] key, which the next restart turns into a [str] key:
    such a registry is not reproduced. *)
Theorem restarted_registry_survives_restarts (s : state) (w : world) (p : float) :
  (NoDup (keys (_subs s)) ->
   (forall k, In k (keys (_subs s)) -> exists n, k = KStr n) ->
   state_json (files s) = Doc (dumps_subs (_subs s)) ->
   _subs (restart s) = _subs s) /\
  (http w = HttpOk p -> disk_ok w = true ->
   _subs (restart (state_of (watcher_cycle w (restart s)))) =
   _subs (state_of (watcher_cycle w (restart s)))) /\
  (_subs (subscribed 9 price_50200 restarted2) =
     [(KStr "7", price_50000); (KStr "8", price_50000); (KInt 9, price_50200)] /\
   _subs (restart (subscribed 9 price_50200 restarted2)) =
     [(KStr "7", price_50000); (KStr "8", price_50000); (KStr "9", price_50200)]).
Proof.
  assert (G : forall s1 : state,
             NoDup (keys (_subs s1)) ->
             (forall k, In k (keys (_subs s1)) -> exists n, k = KStr n) ->
             state_json (files s1) = Doc (dumps_subs (_subs s1)) ->
             _subs (restart s1) = _subs s1).
  { intros s1 ND Str F.
    destruct (str_keys_have_distinct_names (_subs s1) ND Str) as [N M].
    rewrite restart_subs, F. rewrite loads_dumps_subs by assumption. exact M. }
  split; [apply G|]. split; [|split; vm_compute; reflexivity].
  intros Hp Hd.
  set (s1 := restart s). set (s2 := state_of (watcher_cycle w s1)).
  destruct (watcher_cycle_priced w s1 p Hp) as (_ & _ & S & _ & F).
  fold s2 in S, F. rewrite Hd in F.
  assert (K : keys (_subs s2) = keys (_subs s1)).
  { rewrite S. apply rebase_keys. intros [k v] H. unfold keys.
    change (fst (k, v)) with (fst (k, v)). now apply in_map. }
  apply G.
  - apply watcher_cycle_NoDup, restart_NoDup.
  - intros k Hk. rewrite K in Hk. unfold s1 in Hk. rewrite restart_subs in Hk.
    now apply loads_subs_keys in Hk.
  - rewrite F. reflexivity.
Qed.

Lemma restarted_registry_survives_restarts_witness :
  _subs (restart restarted2) =
    [(KStr "7", price_50000); (KStr "8", price_50000)] /\
  _subs (restart (cycle_at price_50200 only_7_fails (restart scenario2))) =
    [(KStr "7", price_50200); (KStr "8", price_50200)].
Proof.
  destruct (restarted_registry_survives_restarts restarted2
              (mkWorld (HttpOk price_50200) only_7_fails true) price_50200)
    as (G & _).
  destruct (restarted_registry_survives_restarts scenario2
              (mkWorld (HttpOk price_50200) only_7_fails true) price_50200)
    as (_ & C & _).
  split.
  - rewrite G; [reflexivity | | | reflexivity].
    + vm_compute. repeat constructor; simpl; intuition discriminate.
    + intros k [<-|[<-|[]]]; eexists; reflexivity.
  - unfold cycle_at. rewrite (C eq_refl eq_refl). reflexivity.
Defined.

(* ================================================================== *)
(** * Keyboards *)
(* ================================================================== *)

Lemma get_price_value w s :
  value_of (get_price w s) =
  match http w with
  | HttpOk p => Ret (Some p)
  | HttpUnexpected => Raise OtherError
  | _ => Ret None
  end.
Proof.
  destruct (http w) as [p| | |] eqn:E.
  - now rewrite (get_price_success w s p E).
  - rewrite get_price_failure; [reflexivity | now rewrite E].
  - rewrite get_price_failure; [reflexivity | now rewrite E].
  - unfold get_price. rewrite E. reflexivity.
Qed.

Lemma cb_btn_sub_value user uid w s :
  value_of (cb_btn user uid "sub" w s) =
  match http w with
  | HttpOk p => Ret (Some MsgSubscribed)
  | HttpUnexpected => Raise OtherError
  | _ => Ret (Some MsgUnavailableRetry)
  end.
Proof.
  destruct (http w) as [p| | |] eqn:E.
  - now rewrite (cb_btn_sub_priced user uid w s p E).
  - unfold cb_btn. cbn [String.eqb Ascii.eqb Bool.eqb]. unfold bind at 1.
    rewrite get_price_failure; [reflexivity | now rewrite E].
  - unfold cb_btn. cbn [String.eqb Ascii.eqb Bool.eqb]. unfold bind at 1.
    rewrite get_price_failure; [reflexivity | now rewrite E].
  - unfold cb_btn. cbn [String.eqb Ascii.eqb Bool.eqb]. unfold bind at 1.
    unfold get_price. rewrite E. reflexivity.
Qed.

(** X19. Every button of the main keyboard and of the interval menu is
    understood by [cb_btn]: whatever the state, pressing it is answered
    with a message (the number on a value button always parses), except
    the check-mark button of a subscriber, which is answered with
    nothing and changes nothing.  Only an exception that [get_price]
    does not catch can make a button fail. *)
Theorem every_offered_button_is_answered
  (is_sub : bool) (data : string) (user uid : Z) (w : world) (s : state) :
  In data (offered (main_kbd is_sub) ++ offered interval_rows) ->
  http w <> HttpUnexpected ->
  (data = "noop" /\ cb_btn user uid data w s = (Ret None, s)) \/
  (data <> "noop" /\ exists m, value_of (cb_btn user uid data w s) = Ret (Some m)).
Proof.
  intros HIn Hw.
  assert (Price : exists m, value_of (cb_btn user uid "price" w s) = Ret (Some m)).
  { rewrite cb_btn_price_value, get_price_value.
    destruct (http w); try contradiction; eexists; reflexivity. }
  assert (Sub : exists m, value_of (cb_btn user uid "sub" w s) = Ret (Some m)).
  { rewrite cb_btn_sub_value.
    destruct (http w); try contradiction; eexists; reflexivity. }
  assert (Unsub : exists m, value_of (cb_btn user uid "unsub" w s) = Ret (Some m)).
  { rewrite cb_btn_unsub. eexists. reflexivity. }
  assert (Step : forall n, In n CHOICES ->
            exists m, value_of (cb_btn user uid (String.append "step_" (py_str n)) w s)
                      = Ret (Some m)).
  { intros n Hn. rewrite (cb_btn_offered_step n user uid w s Hn).
    unfold bind, ret. rewrite change_interval_eq. eexists. reflexivity. }
  assert (Rest :
    In data ["interval"; "price"; "step_50"; "step_100"; "step_200"; "step_500";
             "step_custom"] ->
    data <> "noop" /\ exists m, value_of (cb_btn user uid data w s) = Ret (Some m)).
  { intros [<-|[<-|[<-|[<-|[<-|[<-|[<-|[]]]]]]]];
      (split; [discriminate|]); try assumption.
    - eexists. reflexivity.
    - apply (Step 50). simpl. tauto.
    - apply (Step 100). simpl. tauto.
    - apply (Step 200). simpl. tauto.
    - apply (Step 500). simpl. tauto.
    - eexists. reflexivity. }
  destruct is_sub; cbn in HIn.
  - destruct HIn as [<-|[<-|HIn]].
    + left. split; reflexivity.
    + right. split; [discriminate | assumption].
    + right. apply Rest. exact HIn.
  - destruct HIn as [<-|HIn].
    + right. split; [discriminate | assumption].
    + right. apply Rest. exact HIn.
Qed.

Lemma every_offered_button_is_answered_witness :
  cb_btn 7 7 "noop" offline scenario2 = (Ret None, scenario2) /\
  exists m, value_of (cb_btn 7 7 "step_500" offline scenario2) = Ret (Some m).
Proof.
  destruct (every_offered_button_is_answered true "noop" 7 7 offline scenario2)
    as [[_ N]|[N _]].
  { left. reflexivity. }
  { discriminate. }
  2: { exfalso. now apply N. }
  destruct (every_offered_button_is_answered false "step_500" 7 7 offline scenario2)
    as [[E _]|[_ S]].
  { cbn. tauto. }
  { discriminate. }
  { discriminate E. }
  exact (conj N S).
Defined.

Lemma dict_get_int_among_str uid (d : dict) :
  (forall k, In k (keys d) -> is_int_key k = false) ->
  dict_get (KInt uid) d = None.
Proof.
  unfold keys. induction d as [|[k v] d IH]; intro H; [reflexivity|].
  cbn [dict_get].
  destruct k as [n|nm].
  - specialize (H (KInt n) (or_introl eq_refl)). discriminate.
  - cbn [key_eqb]. apply IH. intros k Hk. apply H. now right.
Qed.

(** X20. The start command changes nothing and shows the current
    interval with the keyboard chosen by whether the [int] key of the
    chat is in the registry: right after a "Subscribe" that got a price
    the subscriber's keyboard (with "Unsubscribe", without
    "Subscribe"), right after an "Unsubscribe" the other one.  A chat
    held only under a [str] key, as every subscriber is after a
    restart, is shown the keyboard of a chat that is not subscribed. *)
Theorem start_shows_the_matching_keyboard (user uid : Z) (w : world) (s : state) :
  state_of (cmd_start uid s) = s /\
  value_of (cmd_start uid s) =
    Ret (_interval s, main_kbd (dict_in (KInt uid) (_subs s))) /\
  (forall p, http w = HttpOk p ->
     value_of (cmd_start uid (state_of (cb_btn user uid "sub" w s))) =
       Ret (_interval s, main_kbd true)) /\
  (NoDup (keys (_subs s)) ->
   value_of (cmd_start uid (state_of (cb_btn user uid "unsub" w s))) =
     Ret (_interval s, main_kbd false)) /\
  ((forall k, In k (keys (_subs s)) -> is_int_key k = false) ->
   value_of (cmd_start uid s) = Ret (_interval s, main_kbd false)) /\
  (dict_in (KStr "7") (_subs restarted1) = true /\
   value_of (cmd_start 7 restarted1) = Ret (200, main_kbd false)) /\
  offered (main_kbd true) = ["noop"; "unsub"; "interval"; "price"] /\
  offered (main_kbd false) = ["sub"; "interval"; "price"].
Proof.
  split; [reflexivity|]. split; [reflexivity|].
  split; [|split; [|split; [|split; [|split]]]]; try reflexivity.
  - intros p Hp. rewrite (cb_btn_sub_priced user uid w s p Hp).
    unfold cmd_start, bind, gets, ret, value_of, state_of, dict_in.
    destruct (disk_ok w); simpl; now rewrite dict_get_set_same.
  - intro ND. rewrite cb_btn_unsub.
    unfold cmd_start, bind, gets, ret, value_of, state_of, dict_in.
    destruct (truthy (dict_get (KInt uid) (_subs s)));
      [destruct (disk_ok w)|]; simpl;
      now rewrite (dict_get_remove_same _ _ ND).
  - intro H.
    unfold cmd_start, bind, gets, ret, value_of, state_of, dict_in. simpl.
    now rewrite (dict_get_int_among_str uid (_subs s) H).
  - split; vm_compute; reflexivity.
Qed.

Lemma start_shows_the_matching_keyboard_witness :
  value_of (cmd_start 7 scenario1) = Ret (200, main_kbd true) /\
  value_of (cmd_start 7 (unsubscribed 7 scenario1)) = Ret (200, main_kbd false) /\
  value_of (cmd_start 8 restarted2) = Ret (200, main_kbd false).
Proof.
  destruct (start_shows_the_matching_keyboard 7 7
              (mkWorld (HttpOk price_50000) all_delivered true) fresh)
    as (_ & _ & S & _).
  destruct (start_shows_the_matching_keyboard 7 7
              (mkWorld HttpTransport all_delivered true) scenario1)
    as (_ & _ & _ & U & _).
  destruct (start_shows_the_matching_keyboard 8 8
              (mkWorld HttpTransport all_delivered true) restarted2)
    as (_ & _ & _ & _ & R & _).
  split; [exact (S price_50000 eq_refl)|]. split.
  - apply U. exact scenario1_keys_NoDup.
  - apply R. intros k [<-|[<-|[]]]; reflexivity.
Defined.

(* ================================================================== *)
(** * Price queries and the failure counter *)
(* ================================================================== *)

Lemma get_price_frame w s :
  _subs (state_of (get_price w s)) = _subs s /\
  _interval (state_of (get_price w s)) = _interval s /\
  files (state_of (get_price w s)) = files s /\
  outbox (state_of (get_price w s)) = outbox s /\
  await_int (state_of (get_price w s)) = await_int s.
Proof.
  destruct (http w) as [p| | |] eqn:E.
  - rewrite (get_price_success w s p E). repeat split.
  - apply get_price_None_frame. now rewrite E.
  - apply get_price_None_frame. now rewrite E.
  - unfold get_price. rewrite E. repeat split.
Qed.

Lemma cmd_price_state w s : state_of (cmd_price w s) = state_of (get_price w s).
Proof.
  unfold cmd_price, bind, ret, state_of.
  destruct (get_price w s) as [[a|e] s']; reflexivity.
Qed.

Lemma cb_btn_price_state user uid w s :
  state_of (cb_btn user uid "price" w s) = state_of (get_price w s).
Proof.
  unfold cb_btn. cbn [String.eqb Ascii.eqb Bool.eqb].
  unfold bind, ret, state_of.
  destruct (get_price w s) as [[a|e] s']; reflexivity.
Qed.

(** X21. A price query, by command or by button, never changes the
    registry, the interval, the files or the outbox, whatever the
    source answers; and a fetched price that is not zero is shown as it
    was fetched. *)
Theorem price_query_changes_no_subscription (user uid : Z) (w : world) (s : state) :
  _subs (state_of (cmd_price w s)) = _subs s /\
  _interval (state_of (cmd_price w s)) = _interval s /\
  files (state_of (cmd_price w s)) = files s /\
  outbox (state_of (cmd_price w s)) = outbox s /\
  state_of (cb_btn user uid "price" w s) = state_of (cmd_price w s) /\
  (forall p, http w = HttpOk p -> PyFloat.truthy p = true ->
     value_of (cmd_price w s) = Ret (MsgPrice p) /\
     value_of (cb_btn user uid "price" w s) = Ret (Some (MsgPrice p))).
Proof.
  rewrite cb_btn_price_state, cmd_price_state.
  destruct (get_price_frame w s) as (S & I & F & O & _).
  split; [exact S|]. split; [exact I|]. split; [exact F|].
  split; [exact O|]. split; [reflexivity|].
  intros p Hp Ht. split.
  - rewrite cmd_price_value, (get_price_success w s p Hp). unfold value_of.
    cbn [fst]. now rewrite Ht.
  - rewrite cb_btn_price_value, (get_price_success w s p Hp). unfold value_of.
    cbn [fst]. now rewrite Ht.
Qed.

Lemma price_query_changes_no_subscription_witness :
  value_of (cmd_price (mkWorld (HttpOk price_50199_99) all_delivered true) scenario2)
    = Ret (MsgPrice price_50199_99) /\
  _subs (state_of (cmd_price (mkWorld (HttpOk price_50199_99) all_delivered true)
                     scenario2)) = _subs scenario2.
Proof.
  destruct (price_query_changes_no_subscription 7 7
              (mkWorld (HttpOk price_50199_99) all_delivered true) scenario2)
    as (S & _ & _ & _ & _ & V).
  split; [exact (proj1 (V price_50199_99 eq_refl eq_refl)) | exact S].
Defined.

(** X22. There is one counter of consecutive failures for every caller
    of [get_price]: a failed fetch adds one to it whether it was made by
    the watcher, by a price query or by "Subscribe", and a successful
    fetch by any of them puts it back to zero. *)
Theorem failure_counter_is_shared (user uid : Z) (w : world) (s : state) :
  (counted_failure (http w) = true ->
   _fail_seq (state_of (watcher_cycle w s)) = _fail_seq s + 1 /\
   _fail_seq (state_of (cmd_price w s)) = _fail_seq s + 1 /\
   _fail_seq (state_of (cb_btn user uid "price" w s)) = _fail_seq s + 1 /\
   _fail_seq (state_of (cb_btn user uid "sub" w s)) = _fail_seq s + 1) /\
  (forall p, http w = HttpOk p ->
   _fail_seq (state_of (watcher_cycle w s)) = 0 /\
   _fail_seq (state_of (cmd_price w s)) = 0 /\
   _fail_seq (state_of (cb_btn user uid "price" w s)) = 0 /\
   _fail_seq (state_of (cb_btn user uid "sub" w s)) = 0).
Proof.
  split.
  - intro C.
    destruct (get_price_failure_escalations w s C) as [F _].
    rewrite cb_btn_price_state, cmd_price_state, (watcher_cycle_unpriced w s C).
    rewrite state_of_pair.
    repeat split; try exact F.
    unfold cb_btn. cbn [String.eqb Ascii.eqb Bool.eqb]. unfold bind at 1.
    rewrite get_price_failure in F |- * by assumption. exact F.
  - intros p Hp.
    rewrite cb_btn_price_state, cmd_price_state.
    rewrite (cb_btn_sub_priced user uid w s p Hp), (get_price_success w s p Hp).
    rewrite (watcher_cycle_eq w s p Hp), write_json_run.
    destruct (loop_frame p (_interval s) w (_subs s)
                (add_log (LogPrice p) (set_fail_seq 0 s))) as (_ & F & _).
    rewrite !state_of_pair.
    repeat split; destruct (disk_ok w); simpl; try reflexivity; exact F.
Qed.

Lemma failure_counter_is_shared_witness :
  _fail_seq (state_of (cmd_price offline
                         (state_of (watcher_cycle offline scenario2)))) = 2 /\
  _fail_seq (cycle_at price_50000 all_delivered
               (state_of (cmd_price offline scenario2))) = 0.
Proof.
  destruct (failure_counter_is_shared 7 7 offline scenario2) as (F0 & _).
  destruct (F0 eq_refl) as (W & C & _).
  destruct (failure_counter_is_shared 7 7 offline
              (state_of (watcher_cycle offline scenario2))) as (F1 & _).
  destruct (F1 eq_refl) as (_ & C1 & _).
  destruct (failure_counter_is_shared 7 7
              (mkWorld (HttpOk price_50000) all_delivered true)
              (state_of (cmd_price offline scenario2))) as (_ & R).
  destruct (R price_50000 eq_refl) as (W0 & _).
  split; [rewrite C1, W; reflexivity | exact W0].
Defined.
